(** * bt: a client of the panel's HTTP control API (client.go)

    A shallow embedding of the request pipeline of [client.go]: the token
    signer ([MD5] over [crypto/md5] and [encoding/hex]), the request
    executor [btAPI] with the cookie set held on the [Client], and the
    operations built on it ([Raw], [GetNetWork], [GetTaskCount],
    [DeleteSite], [GetLimitNet], ...).

    The Go standard library is modelled at its interface: [crypto/md5] by
    the algorithm of RFC 1321, [strconv.Atoi] and [strconv.FormatInt] by
    their definitions, and the network, the clock and the JSON decoder as
    explicit parameters of a call. *)

From Stdlib Require Import ZArith List Ascii String DecimalString Lia.
From stdpp Require Import gmap strings list fin_maps.
Import ListNotations.

Local Open Scope string_scope.
Local Open Scope Z_scope.

(** ** Bytes and strings

    A Go [string] is a sequence of bytes; it is a [string] here, and its
    bytes are the codes of its characters. *)

Definition byte_of_ascii (a : ascii) : Z := Z.of_N (N_of_ascii a).

Definition bytes_of_string (s : string) : list Z :=
  map byte_of_ascii (list_ascii_of_string s).

(** ** encoding/hex *)

Module hex.

Definition hextable : list ascii :=
  list_ascii_of_string "0123456789abcdef".

Definition digit (i : Z) : ascii := nth (Z.to_nat i) hextable "0"%char.

(** [Encode]: for each byte [v], [hextable[v>>4]] then [hextable[v&0x0f]]. *)
Fixpoint EncodeToString (src : list Z) : string :=
  match src with
  | [] => EmptyString
  | v :: rest =>
      String (digit (Z.shiftr v 4))
        (String (digit (Z.land v 15)) (EncodeToString rest))
  end.


End hex.

(** ** crypto/md5 (RFC 1321) *)

Module md5.

Definition wrap32 (x : Z) : Z := x mod 2 ^ 32.

Definition not32 (x : Z) : Z := Z.lxor x 4294967295.

(** [bits.RotateLeft32] *)
Definition rotl32 (x n : Z) : Z :=
  wrap32 (Z.lor (Z.shiftl x n) (Z.shiftr x (32 - n))).

(** The table [floor(2^32 * abs(sin(i+1)))]. *)
Definition K : list Z :=
  [ 3614090360; 3905402710; 606105819; 3250441966; 4118548399; 1200080426;
    2821735955; 4249261313; 1770035416; 2336552879; 4294925233; 2304563134;
    1804603682; 4254626195; 2792965006; 1236535329; 4129170786; 3225465664;
    643717713; 3921069994; 3593408605; 38016083; 3634488961; 3889429448;
    568446438; 3275163606; 4107603335; 1163531501; 2850285829; 4243563512;
    1735328473; 2368359562; 4294588738; 2272392833; 1839030562; 4259657740;
    2763975236; 1272893353; 4139469664; 3200236656; 681279174; 3936430074;
    3572445317; 76029189; 3654602809; 3873151461; 530742520; 3299628645;
    4096336452; 1126891415; 2878612391; 4237533241; 1700485571; 2399980690;
    4293915773; 2240044497; 1873313359; 4264355552; 2734768916; 1309151649;
    4149444226; 3174756917; 718787259; 3951481745 ].

(** Per-step left rotations. *)
Definition S : list Z :=
  [ 7; 12; 17; 22; 7; 12; 17; 22; 7; 12; 17; 22; 7; 12; 17; 22;
    5; 9; 14; 20; 5; 9; 14; 20; 5; 9; 14; 20; 5; 9; 14; 20;
    4; 11; 16; 23; 4; 11; 16; 23; 4; 11; 16; 23; 4; 11; 16; 23;
    6; 10; 15; 21; 6; 10; 15; 21; 6; 10; 15; 21; 6; 10; 15; 21 ].

Record digest := Digest { s0 : Z; s1 : Z; s2 : Z; s3 : Z }.

Definition init : digest :=
  Digest 1732584193 4023233417 2562383102 271733878.

(** Little-endian word made of the four bytes at offset [4*g] of a block. *)
Definition word_at (blk : list Z) (g : Z) : Z :=
  let b k := nth (Z.to_nat (4 * g + k)) blk 0 in
  b 0 + b 1 * 2 ^ 8 + b 2 * 2 ^ 16 + b 3 * 2 ^ 24.

(** One of the 64 steps of the compression of a block. *)
Definition step (blk : list Z) (st : digest) (i : Z) : digest :=
  let '(Digest a b c d) := st in
  let '(f, g) :=
    if i <? 16 then (Z.lor (Z.land b c) (Z.land (not32 b) d), i)
    else if i <? 32 then
      (Z.lor (Z.land d b) (Z.land (not32 d) c), (5 * i + 1) mod 16)
    else if i <? 48 then (Z.lxor (Z.lxor b c) d, (3 * i + 5) mod 16)
    else (Z.lxor c (Z.lor b (not32 d)), (7 * i) mod 16) in
  let k := nth (Z.to_nat i) K 0 in
  let s := nth (Z.to_nat i) S 0 in
  let f' := wrap32 (f + a + k + word_at blk g) in
  Digest d (wrap32 (b + rotl32 f' s)) b c.

Definition steps : list Z := map Z.of_nat (seq 0 64).

Definition block (st : digest) (blk : list Z) : digest :=
  let '(Digest a b c d) := fold_left (step blk) steps st in
  Digest (wrap32 (s0 st + a)) (wrap32 (s1 st + b))
         (wrap32 (s2 st + c)) (wrap32 (s3 st + d)).

(** [n] little-endian bytes of [x]. *)
Fixpoint le_bytes (n : nat) (x : Z) : list Z :=
  match n with
  | O => []
  | Datatypes.S n' => x mod 256 :: le_bytes n' (x / 256)
  end.

(** Padding of [Sum]: 0x80, zeros up to 56 mod 64, the bit length. *)
Definition pad (msg : list Z) : list Z :=
  let len := Z.of_nat (length msg) in
  msg ++ [128] ++ repeat 0 (Z.to_nat ((55 - len) mod 64))
      ++ le_bytes 8 ((len * 8) mod 2 ^ 64).

(** The blocks of a padded message, [fuel] bounding their number. *)
Fixpoint blocks (fuel : nat) (st : digest) (l : list Z) : digest :=
  match fuel, l with
  | O, _ | _, [] => st
  | Datatypes.S fuel', _ => blocks fuel' (block st (firstn 64 l)) (skipn 64 l)
  end.

(** [h := md5.New(); h.Write(msg); h.Sum(nil)] *)
Definition Sum (msg : list Z) : list Z :=
  let p := pad msg in
  let '(Digest a b c d) := blocks (length p) init p in
  le_bytes 4 a ++ le_bytes 4 b ++ le_bytes 4 c ++ le_bytes 4 d.

End md5.

(** [MD5]: the hexadecimal MD5 digest of a string (client.go, l. 622). *)
Definition MD5 (s : string) : string :=
  hex.EncodeToString (md5.Sum (bytes_of_string s)).

(** ** strconv *)

Module strconv.

(** [FormatInt(i, 10)]: decimal digits, a leading [-] for negatives. *)
Definition FormatInt (i : Z) : string := NilZero.string_of_int (Z.to_int i).

(** [FormatBool] *)
Definition FormatBool (b : bool) : string := if b then "true" else "false".

(** The two causes of a [*NumError]. *)
Inductive NumError := ErrSyntax | ErrRange.

(** [IntSize]: the size of [int] on the 64-bit platforms. *)
Definition IntSize : Z := 64.

Definition maxUint64 : Z := 2 ^ 64 - 1.

(** [lower(c) = c | ('x' - 'X')] *)
Definition lower (c : Z) : Z := Z.lor c 32.

(** The digit value [ParseUint] gives a byte, [None] for a byte that is
    neither a digit nor a letter. *)
Definition digit_of (c : Z) : option Z :=
  if (48 <=? c) && (c <=? 57) then Some (c - 48)
  else if (97 <=? lower c) && (lower c <=? 122) then Some (lower c - 97 + 10)
  else None.

(** The loop of [ParseUint(s, 10, 64)] over the bytes of [s], from the
    accumulator [n]; a range error returns [maxVal] at once. *)
Fixpoint ParseUint_loop (cs : list Z) (n : Z) : Z * option NumError :=
  match cs with
  | [] => (n, None)
  | c :: rest =>
      match digit_of c with
      | None => (0, Some ErrSyntax)
      | Some d =>
          if 10 <=? d then (0, Some ErrSyntax)
          else if maxUint64 / 10 + 1 <=? n then (maxUint64, Some ErrRange)
          else
            let n10 := n * 10 in
            let n1 := (n10 + d) mod 2 ^ 64 in
            if (n1 <? n10) || (maxUint64 <? n1) then (maxUint64, Some ErrRange)
            else ParseUint_loop rest n1
      end
  end.

Definition ParseUint (s : list Z) : Z * option NumError :=
  match s with
  | [] => (0, Some ErrSyntax)
  | _ => ParseUint_loop s 0
  end.

(** [ParseInt(s, 10, 0)], after the leading sign is picked off: [s] is
    what follows the sign. *)
Definition ParseInt_unsigned (neg : bool) (s : list Z) : Z * option NumError :=
  match ParseUint s with
  | (_, Some ErrSyntax) => (0, Some ErrSyntax)
  | (un, _) =>
      let cutoff := 2 ^ (IntSize - 1) in
      if negb neg && (cutoff <=? un) then (cutoff - 1, Some ErrRange)
      else if neg && (cutoff <? un) then (- cutoff, Some ErrRange)
      else (if neg then - un else un, None)
  end.

(** [ParseInt(s, 10, 0)] *)
Definition ParseInt (s : list Z) : Z * option NumError :=
  match s with
  | [] => (0, Some ErrSyntax)
  | c :: rest =>
      if c =? 43 then ParseInt_unsigned false rest
      else if c =? 45 then ParseInt_unsigned true rest
      else ParseInt_unsigned false s
  end.

(** The fast path of [Atoi]: [ch -= '0'] on a byte, then [n = n*10 + ch]. *)
Fixpoint Atoi_fast (cs : list Z) (n : Z) : Z * option NumError :=
  match cs with
  | [] => (n, None)
  | ch :: rest =>
      let ch' := (ch - 48) mod 256 in
      if 9 <? ch' then (0, Some ErrSyntax)
      else Atoi_fast rest (n * 10 + ch')
  end.

(** [Atoi(s)] *)
Definition Atoi (s : string) : Z * option NumError :=
  let bs := bytes_of_string s in
  let sLen := Z.of_nat (length bs) in
  if (0 <? sLen) && (sLen <? 19) then
    match bs with
    | [] => (0, Some ErrSyntax)
    | c :: rest =>
        let signed := (c =? 45) || (c =? 43) in
        let ds := if signed then rest else bs in
        if signed && (Z.of_nat (length ds) <? 1) then (0, Some ErrSyntax)
        else
          match Atoi_fast ds 0 with
          | (n, None) => (if c =? 45 then - n else n, None)
          | r => r
          end
    end
  else ParseInt bs.

End strconv.

(** ** Decimal integer strings

    The reading of a decimal integer string that [Atoi] is compared with:
    an optional sign, then one or more decimal digits; [decimal_integer s]
    is the integer the string denotes. *)

Definition is_digit (c : Z) : bool := (48 <=? c) && (c <=? 57).

Fixpoint digits_value (cs : list Z) (acc : Z) : option Z :=
  match cs with
  | [] => Some acc
  | c :: rest =>
      if is_digit c then digits_value rest (acc * 10 + (c - 48)) else None
  end.

Definition decimal_bytes (bs : list Z) : option Z :=
  match bs with
  | [] => None
  | c :: rest =>
      if c =? 45 then
        match rest with [] => None | _ => Z.opp <$> digits_value rest 0 end
      else if c =? 43 then
        match rest with [] => None | _ => digits_value rest 0 end
      else digits_value bs 0
  end.

Definition decimal_integer (s : string) : option Z :=
  decimal_bytes (bytes_of_string s).

(** The range of Go's [int]. *)
Definition fits_int (n : Z) : bool :=
  (- 2 ^ (strconv.IntSize - 1) <=? n) && (n <=? 2 ^ (strconv.IntSize - 1) - 1).

(** ** Errors

    The values of Go's [error] interface that the client meets, by the
    concrete type behind them. *)

Record UrlError := { Op : string; URL : string; Err : string }.

Inductive error :=
| url_Error (e : UrlError)     (* [*url.Error], from [url.Parse] and [PostForm] *)
| errorString (s : string)     (* [*errors.errorString], from [errors.New] *)
| io_Error (msg : string)      (* a read error of the response body *)
| json_Error (msg : string).   (* a decode error of [json.Unmarshal] *)

Module errors.
Definition New (text : string) : error := errorString text.
End errors.

Definition quote : string := String (ascii_of_nat 34) EmptyString.

(** The [Error()] method; a [*url.Error] quotes its URL (written here for
    a URL with nothing to escape). *)
Definition Error (e : error) : string :=
  match e with
  | url_Error u => Op u ++ " " ++ quote ++ URL u ++ quote ++ ": " ++ Err u
  | errorString s => s
  | io_Error msg => msg
  | json_Error msg => msg
  end.

(** ** net/http, at the interface the client uses *)

(** A [[]byte]: the same bytes as a string, so that [string(b)] and
    [[]byte(s)] are the identity; [nil] is the empty string. *)
Definition bytes : Type := string.

Record Cookie := { Name : string; Value : string }.

(** A parsed [*url.URL], by what [String()] renders. *)
Record Url := { Url_String : string }.

(** A cookie jar, by the [SetCookies] calls made on it. *)
Definition Jar : Type := list (Url * list Cookie).

Module cookiejar.
Definition New : Jar := [].
Definition SetCookies (u : Url) (cs : list Cookie) (jar : Jar) : Jar :=
  (jar ++ [(u, cs)])%list.
End cookiejar.

(** What [client.PostForm(url, body)] sends for an [http.Client] with the
    given [Jar] and [Timeout]. *)
Record Request := {
  req_url : string;
  req_form : gmap string (list string);
  req_Jar : Jar;
  req_Timeout : Z
}.

(** An [*http.Response]: [Cookies] is what [resp.Cookies()] parses from its
    headers, [Body] what [ioutil.ReadAll(resp.Body)] returns. *)
Record Response := {
  StatusCode : Z;
  Status : string;
  Cookies : list Cookie;
  Body : error + bytes
}.

(** What surrounds one call: the clock, [url.Parse], [cookiejar.New] and
    the network. *)
Record World := {
  time_Now_Unix : Z;
  url_Parse : string -> UrlError + Url;
  cookiejar_New : option error;
  PostForm : Request -> UrlError + Response
}.

(** ** The client *)

Record Client := {
  BTAddress : string;
  BTKey : string;
  cookies : list Cookie;
  Timeout : Z
}.

(** [NewClient] (l. 27) *)
Definition NewClient (address key : string) (timeout : list Z) : Client :=
  let ret := {| BTAddress := address; BTKey := key; cookies := []; Timeout := 0 |} in
  match timeout with
  | t :: _ =>
      if negb (t =? 0)
      then {| BTAddress := address; BTKey := key; cookies := []; Timeout := t |}
      else ret
  | [] => ret
  end.

(** [c.cookies = cs] *)
Definition set_cookies (c : Client) (cs : list Cookie) : Client :=
  {| BTAddress := BTAddress c; BTKey := BTKey c; cookies := cs;
     Timeout := Timeout c |}.

(** A Go call either panics or returns. *)
Inductive Result (A : Type) :=
| Panic (e : error)
| Return (a : A).
Arguments Panic {A} e.
Arguments Return {A} a.

(** The effect of a method of [*Client]: its result, the client it leaves
    and the requests it sent, in order. *)
Record Effect (A : Type) := {
  result : Result A;
  after : Client;
  sent : list Request
}.
Arguments result {A} _.
Arguments after {A} _.
Arguments sent {A} _.

(** [nowTime] and [requestToken] of a call at Unix time [now] with the key
    [key] (l. 43-44). *)
Definition nowTime (now : Z) : string := strconv.FormatInt now.

Definition requestToken (now : Z) (key : string) : string :=
  MD5 (nowTime now ++ MD5 key).

(** The literal [url.Values{...}] of l. 45-48. *)
Definition signing_fields (now : Z) (key : string) : gmap string (list string) :=
  <["request_token" := [requestToken now key]]>
    (<["request_time" := [nowTime now]]> ∅).

(** [for k, v := range data { body[k] = v }] (l. 49-51) *)
Definition form_body (now : Z) (key : string) (data : gmap string (list string))
  : gmap string (list string) :=
  map_fold (fun k v body => <[k := v]> body) (signing_fields now key) data.

(** The jar of l. 52-62: the held cookies are set on it when there are any. *)
Definition request_jar (requestURL : Url) (c : Client) : Jar :=
  if negb (Nat.eqb (length (cookies c)) 0)
  then cookiejar.SetCookies requestURL (cookies c) cookiejar.New
  else cookiejar.New.

(** What l. 63 posts. *)
Definition new_request (w : World) (requestURL : Url)
    (data : gmap string (list string)) (c : Client) : Request :=
  {| req_url := Url_String requestURL;
     req_form := form_body (time_Now_Unix w) (BTKey c) data;
     req_Jar := request_jar requestURL c;
     req_Timeout := Timeout c |}.

(** [btAPI] (l. 38-77). A returned pair is Go's [([]byte, error)]. *)
Definition btAPI (w : World) (data : gmap string (list string))
    (endpoint : string) (c : Client) : Effect (bytes * option error) :=
  match url_Parse w (BTAddress c ++ endpoint) with
  | inl err => {| result := Panic (url_Error err); after := c; sent := [] |}
  | inr requestURL =>
      match cookiejar_New w with
      | Some err => {| result := Panic err; after := c; sent := [] |}
      | None =>
          let req := new_request w requestURL data c in
          match PostForm w req with
          | inl err =>
              {| result := Return ("", Some (url_Error err)); after := c;
                 sent := [req] |}
          | inr resp =>
              if 400 <=? StatusCode resp then
                {| result := Return ("", Some (errors.New (Status resp)));
                   after := c; sent := [req] |}
              else
                let c' := set_cookies c (Cookies resp) in
                match Body resp with
                | inl err =>
                    {| result := Return ("", Some err); after := c';
                       sent := [req] |}
                | inr respBody =>
                    {| result := Return (respBody, None); after := c';
                       sent := [req] |}
                end
          end
      end
  end.

(** [Raw] (l. 81) *)
Definition Raw (w : World) (data : gmap string (list string))
    (endpoint : string) (c : Client) : Effect (bytes * option error) :=
  btAPI w data endpoint c.

(** What an operation does with the pair [btAPI] returned; a panic of
    [btAPI] unwinds through the operation. *)
Definition then_ {A B : Type} (e : Effect A) (k : A -> B) : Effect B :=
  {| result := match result e with
               | Panic err => Panic err
               | Return a => Return (k a)
               end;
     after := after e; sent := sent e |}.

(** ** JSON decoding

    The typed results ([NetWork], [RespMSG], [RespLimitNet], ...) are
    declared outside client.go; a result type comes with its zero value
    [T{}] and with what [json.Unmarshal(data, &v)] makes of [v]. *)
Class Decodable (T : Type) := {
  zero : T;
  Unmarshal : bytes -> T -> T * option error;
  (** an empty input is an error ("unexpected end of JSON input") *)
  Unmarshal_empty : forall v, snd (Unmarshal "" v) <> None
}.

(** [var dec T; if err := json.Unmarshal(resp, &dec); err != nil
      { return T{}, err }; return dec, nil] *)
Definition decode {T : Type} `{Decodable T} (resp : bytes) : T * option error :=
  match Unmarshal resp zero with
  | (_, Some err) => (zero, Some err)
  | (dec, None) => (dec, None)
  end.

(** ** Operations *)

(** The body shared by the operations that check [err] before they decode
    ([GetNetWork], [GetSystemTotal], [GetDiskInfo], [GetSites], ...). *)
Definition structured_decode {T : Type} `{Decodable T} (w : World)
    (data : gmap string (list string)) (endpoint : string) (c : Client)
  : Effect (T * option error) :=
  then_ (btAPI w data endpoint c)
    (fun '(resp, err) =>
       match err with
       | Some err => (zero, Some err)
       | None => decode resp
       end).

(** The body shared by the operations that drop [err],
    [resp, _ := c.btAPI(...)], and decode [resp] ([DeleteSite],
    [StopSite], [SetLimitNet], ...). *)
Definition best_effort_decode {T : Type} `{Decodable T} (w : World)
    (data : gmap string (list string)) (endpoint : string) (c : Client)
  : Effect (T * option error) :=
  then_ (btAPI w data endpoint c) (fun '(resp, _) => decode resp).

Record ReqDeleteSite := {
  ID : Z;
  WebName : string;
  FTP : bool;
  Database : bool;
  Path : bool
}.

(** The parameters [DeleteSite] sends (l. 224-236). *)
Definition DeleteSite_data (params : ReqDeleteSite) : gmap string (list string) :=
  let data : gmap string (list string) :=
    <["id" := [strconv.FormatInt (ID params)]]>
      (<["webname" := [WebName params]]> ∅) in
  let data := if FTP params then <["ftp" := ["1"]]> data else data in
  let data := if Database params then <["database" := ["1"]]> data else data in
  if Path params then <["path" := ["1"]]> data else data.

Section Operations.

Context {NetWork SystemTotal RespMSG RespLimitNet : Type}.
Context `{!Decodable NetWork} `{!Decodable SystemTotal}
        `{!Decodable RespMSG} `{!Decodable RespLimitNet}.

(** [GetNetWork] (l. 86) *)
Definition GetNetWork (w : World) (c : Client) : Effect (NetWork * option error) :=
  structured_decode w ∅ "/system?action=GetNetWork" c.

(** [GetSystemTotal] (l. 99) *)
Definition GetSystemTotal (w : World) (c : Client)
  : Effect (SystemTotal * option error) :=
  structured_decode w ∅ "/system?action=GetSystemTotal" c.

(** [GetTaskCount] (l. 125) *)
Definition GetTaskCount (w : World) (c : Client) : Effect Z :=
  then_ (btAPI w ∅ "/ajax?action=GetTaskCount" c)
    (fun '(resp, err) =>
       match err with
       | Some _ => 0
       | None =>
           match strconv.Atoi resp with
           | (_, Some _) => 0
           | (dec, None) => dec
           end
       end).

(** [DeleteSite] (l. 223) *)
Definition DeleteSite (w : World) (params : ReqDeleteSite) (c : Client)
  : Effect (RespMSG * option error) :=
  best_effort_decode w (DeleteSite_data params) "/site?action=DeleteSite" c.

(** [StopSite] (l. 246) *)
Definition StopSite (w : World) (id : Z) (name : string) (c : Client)
  : Effect (RespMSG * option error) :=
  best_effort_decode w
    (<["id" := [strconv.FormatInt id]]> (<["name" := [name]]> ∅))
    "/site?action=SiteStop" c.

(** [GetLimitNet] (l. 551) *)
Definition GetLimitNet (w : World) (id : Z) (c : Client)
  : Effect (RespLimitNet * option error) :=
  then_ (btAPI w (<["id" := [strconv.FormatInt id]]> ∅)
           "/site?action=GetLimitNet" c)
    (fun '(resp, err) =>
       match err with
       | Some _ => (zero, Some (errors.New resp))
       | None => decode resp
       end).

(** [SetLimitNet] (l. 567) *)
Definition SetLimitNet (w : World) (id perServer perIP limitRate : Z)
    (c : Client) : Effect (RespMSG * option error) :=
  best_effort_decode w
    (<["id" := [strconv.FormatInt id]]>
       (<["perserver" := [strconv.FormatInt perServer]]>
          (<["perip" := [strconv.FormatInt perIP]]>
             (<["limit_rate" := [strconv.FormatInt limitRate]]> ∅))))
    "/site?action=SetLimitNet" c.

(** [GetIndex] (l. 596) *)
Definition GetIndex (w : World) (id : Z) (c : Client)
  : Effect (string * option error) :=
  then_ (btAPI w (<["id" := [strconv.FormatInt id]]> ∅) "/site?action=GetIndex" c)
    (fun '(resp, err) =>
       match err with
       | Some err => ("", Some err)
       | None => (resp, None)
       end).

End Operations.

(** ** Sessions: calls made one after the other on the same client *)

Record Call := {
  call_world : World;
  call_data : gmap string (list string);
  call_endpoint : string
}.

(** The effects of the calls of a session, each call starting from the
    client the one before left; a panic ends the session. *)
Fixpoint session (calls : list Call) (c : Client)
  : list (Effect (bytes * option error)) :=
  match calls with
  | [] => []
  | k :: rest =>
      let e := btAPI (call_world k) (call_data k) (call_endpoint k) c in
      e :: match result e with
           | Panic _ => []
           | Return _ => session rest (after e)
           end
  end.

(** ** A panel double

    Concrete worlds on which the theorems are run: a panel that answers
    every request with one given response, and one that cannot be
    reached. *)
Module Double.

Definition parse (s : string) : UrlError + Url := inr {| Url_String := s |}.

Definition answers (now : Z) (resp : Response) : World :=
  {| time_Now_Unix := now; url_Parse := parse; cookiejar_New := None;
     PostForm := fun _ => inr resp |}.

Definition refused : UrlError :=
  {| Op := "Post"; URL := "http://panel.example:8888";
     Err := "dial tcp: connection refused" |}.

Definition unreachable (now : Z) : World :=
  {| time_Now_Unix := now; url_Parse := parse; cookiejar_New := None;
     PostForm := fun _ => inl refused |}.

Definition client : Client :=
  NewClient "http://panel.example:8888" "secret" [].

Definition A : list Cookie := [ {| Name := "session"; Value := "a" |} ].
Definition B : list Cookie := [ {| Name := "session"; Value := "b" |} ].

(** The client, holding the cookie set [A]. *)
Definition seeded : Client := set_cookies client A.

Definition ok (cs : list Cookie) (body : bytes) : Response :=
  {| StatusCode := 200; Status := "200 OK"; Cookies := cs; Body := inr body |}.

Definition failed (cs : list Cookie) (body : bytes) : Response :=
  {| StatusCode := 500; Status := "500 Internal Server Error";
     Cookies := cs; Body := inr body |}.

Definition cut (cs : list Cookie) : Response :=
  {| StatusCode := 200; Status := "200 OK"; Cookies := cs;
     Body := inl (io_Error "unexpected EOF") |}.

(** A typed result of one field, decoded from the JSON booleans. *)
Definition Unmarshal_bool (data : bytes) (v : bool) : bool * option error :=
  if String.eqb data "true" then (true, None)
  else if String.eqb data "false" then (false, None)
  else (v, Some (json_Error "invalid input")).

#[global] Instance bool_Decodable : Decodable bool :=
  {| zero := false; Unmarshal := Unmarshal_bool;
     Unmarshal_empty := fun v => ltac:(discriminate) |}.

End Double.

(** ** The other operations of client.go *)

(** [json.Marshal(v)] for the type of a value sent as one form field. *)
Class Encodable (T : Type) := {
  Marshal : T -> bytes * option error
}.

Module ReqSites.
Record t := {
  P : Z;
  Limit : Z;
  Type_ : Z;
  Order : string;
  ToJS : string;
  Search : string
}.
End ReqSites.

Module ReqSiteBackups.
Record t := {
  P : Z;
  Limit : Z;
  Type_ : Z;
  ToJS : string;
  Search : Z
}.
End ReqSiteBackups.

Module ReqAddSite.
Record t (W : Type) := {
  WebName : W;
  Path : string;
  TypeID : Z;
  Type_ : string;
  Version : Z;
  Port : Z;
  PS : string;
  FTP : bool;
  FTPUserName : string;
  FTPPassword : string;
  SQL : bool;
  Codeing : string;
  DataUser : string;
  DataPassword : string
}.
Arguments WebName {W} _.
Arguments Path {W} _.
Arguments TypeID {W} _.
Arguments Type_ {W} _.
Arguments Version {W} _.
Arguments Port {W} _.
Arguments PS {W} _.
Arguments FTP {W} _.
Arguments FTPUserName {W} _.
Arguments FTPPassword {W} _.
Arguments SQL {W} _.
Arguments Codeing {W} _.
Arguments DataUser {W} _.
Arguments DataPassword {W} _.
End ReqAddSite.

(** The parameters [GetUpdateStatus] sends (l. 152-155). *)
Definition GetUpdateStatus_data (check force : bool) : gmap string (list string) :=
  <["check" := [strconv.FormatBool check]]>
    (<["force" := [strconv.FormatBool force]]> ∅).

(** The parameters [GetSites] sends (l. 169-176). *)
Definition GetSites_data (params : ReqSites.t) : gmap string (list string) :=
  <["p" := [strconv.FormatInt (ReqSites.P params)]]>
    (<["limit" := [strconv.FormatInt (ReqSites.Limit params)]]>
       (<["type" := [strconv.FormatInt (ReqSites.Type_ params)]]>
          (<["order" := [ReqSites.Order params]]>
             (<["tojs" := [ReqSites.ToJS params]]>
                (<["search" := [ReqSites.Search params]]> ∅))))).

(** The parameters [AddSite] sends (l. 195-210), [webname] being the
    marshalled [params.WebName]. *)
Definition AddSite_data {W : Type} (webname : bytes) (params : ReqAddSite.t W)
  : gmap string (list string) :=
  <["webname" := [webname]]>
    (<["path" := [ReqAddSite.Path params]]>
       (<["type_id" := [strconv.FormatInt (ReqAddSite.TypeID params)]]>
          (<["type" := [ReqAddSite.Type_ params]]>
             (<["version" := [strconv.FormatInt (ReqAddSite.Version params)]]>
                (<["port" := [strconv.FormatInt (ReqAddSite.Port params)]]>
                   (<["ps" := [ReqAddSite.PS params]]>
                      (<["ftp" := [strconv.FormatBool (ReqAddSite.FTP params)]]>
                         (<["ftp_username" := [ReqAddSite.FTPUserName params]]>
                            (<["ftp_password" := [ReqAddSite.FTPPassword params]]>
                               (<["sql" := [strconv.FormatBool (ReqAddSite.SQL params)]]>
                                  (<["codeing" := [ReqAddSite.Codeing params]]>
                                     (<["datauser" := [ReqAddSite.DataUser params]]>
                                        (<["datapassword" :=
                                             [ReqAddSite.DataPassword params]]> ∅))))))))))))).

(** The parameters [GetSiteBackups] sends (l. 303-309). *)
Definition GetSiteBackups_data (params : ReqSiteBackups.t) : gmap string (list string) :=
  <["p" := [strconv.FormatInt (ReqSiteBackups.P params)]]>
    (<["limit" := [strconv.FormatInt (ReqSiteBackups.Limit params)]]>
       (<["type" := [strconv.FormatInt (ReqSiteBackups.Type_ params)]]>
          (<["tojs" := [ReqSiteBackups.ToJS params]]>
             (<["search" := [strconv.FormatInt (ReqSiteBackups.Search params)]]> ∅)))).

(** The parameters [GetSiteDomains] sends (l. 350-355). *)
Definition GetSiteDomains_data (keyWords : list string) : gmap string (list string) :=
  let data : gmap string (list string) := <["list" := ["true"]]> ∅ in
  if negb (Nat.eqb (length keyWords) 0) then <["search" := keyWords]> data else data.

Section MoreOperations.

Context {DiskInfo PHPVersions UpdateStatus RespSites RespAddSite RespMSG
         RespSiteBackups SiteDomains RewriteList RespGetFile RespUserINI : Type}.
Context `{!Decodable DiskInfo} `{!Decodable PHPVersions}
        `{!Decodable UpdateStatus} `{!Decodable RespSites}
        `{!Decodable RespAddSite} `{!Decodable RespMSG}
        `{!Decodable RespSiteBackups} `{!Decodable SiteDomains}
        `{!Decodable RewriteList} `{!Decodable RespGetFile}
        `{!Decodable RespUserINI}.
Context {WebNameT : Type} `{!Encodable WebNameT}.

(** [GetDiskInfo] (l. 112) *)
Definition GetDiskInfo (w : World) (c : Client) : Effect (DiskInfo * option error) :=
  structured_decode w ∅ "/system?action=GetDiskInfo" c.

(** [GetPHPVersion] (l. 138) *)
Definition GetPHPVersion (w : World) (c : Client)
  : Effect (PHPVersions * option error) :=
  structured_decode w ∅ "/site?action=GetPHPVersion" c.

(** [GetUpdateStatus] (l. 151) *)
Definition GetUpdateStatus (w : World) (check force : bool) (c : Client)
  : Effect (UpdateStatus * option error) :=
  structured_decode w (GetUpdateStatus_data check force) "/ajax?action=UpdatePanel" c.

(** [GetSites] (l. 168) *)
Definition GetSites (w : World) (params : ReqSites.t) (c : Client)
  : Effect (RespSites * option error) :=
  structured_decode w (GetSites_data params) "/data?action=getData&table=sites" c.

(** [AddSite] (l. 189): the name is marshalled before anything is sent. *)
Definition AddSite (w : World) (params : ReqAddSite.t WebNameT) (c : Client)
  : Effect (RespAddSite * option error) :=
  match Marshal (ReqAddSite.WebName params) with
  | (_, Some err) =>
      {| result := Return (zero, Some err); after := c; sent := [] |}
  | (webname, None) =>
      structured_decode w (AddSite_data webname params) "/site?action=AddSite" c
  end.

(** [StartSite] (l. 260) *)
Definition StartSite (w : World) (id : Z) (name : string) (c : Client)
  : Effect (RespMSG * option error) :=
  best_effort_decode w
    (<["id" := [strconv.FormatInt id]]> (<["name" := [name]]> ∅))
    "/site?action=SiteStart" c.

(** [SetSiteEdate] (l. 274) *)
Definition SetSiteEdate (w : World) (id : Z) (edate : string) (c : Client)
  : Effect (RespMSG * option error) :=
  best_effort_decode w
    (<["id" := [strconv.FormatInt id]]> (<["edate" := [edate]]> ∅))
    "/site?action=SetEdate" c.

(** [SetSitePS] (l. 288) *)
Definition SetSitePS (w : World) (id : Z) (ps : string) (c : Client)
  : Effect (RespMSG * option error) :=
  best_effort_decode w
    (<["id" := [strconv.FormatInt id]]> (<["ps" := [ps]]> ∅))
    "/data?action=setPs&table=sites" c.

(** [GetSiteBackups] (l. 302) *)
Definition GetSiteBackups (w : World) (params : ReqSiteBackups.t) (c : Client)
  : Effect (RespSiteBackups * option error) :=
  structured_decode w (GetSiteBackups_data params)
    "/data?action=getData&table=backup" c.

(** [SiteBackup] (l. 323) *)
Definition SiteBackup (w : World) (id : Z) (c : Client)
  : Effect (RespMSG * option error) :=
  best_effort_decode w (<["id" := [strconv.FormatInt id]]> ∅)
    "/site?action=ToBackup" c.

(** [DeleteSiteBackup] (l. 336) *)
Definition DeleteSiteBackup (w : World) (id : Z) (c : Client)
  : Effect (RespMSG * option error) :=
  best_effort_decode w (<["id" := [strconv.FormatInt id]]> ∅)
    "/site?action=DelBackup" c.

(** [GetSiteDomains] (l. 349) *)
Definition GetSiteDomains (w : World) (keyWords : list string) (c : Client)
  : Effect (SiteDomains * option error) :=
  structured_decode w (GetSiteDomains_data keyWords)
    "/data?action=getData&table=domain" c.

(** [AddDomain] (l. 371) *)
Definition AddDomain (w : World) (id : Z) (webname domain : string) (c : Client)
  : Effect (RespMSG * option error) :=
  best_effort_decode w
    (<["id" := [strconv.FormatInt id]]>
       (<["webname" := [webname]]> (<["domain" := [domain]]> ∅)))
    "/site?action=AddDomain" c.

(** [DelDomain] (l. 389) *)
Definition DelDomain (w : World) (id : Z) (webname domain : string) (port : Z)
    (c : Client) : Effect (RespMSG * option error) :=
  best_effort_decode w
    (<["id" := [strconv.FormatInt id]]>
       (<["webname" := [webname]]>
          (<["domain" := [domain]]>
             (<["port" := [strconv.FormatInt port]]> ∅))))
    "/site?action=DelDomain" c.

(** [GetRewriteList] (l. 405) *)
Definition GetRewriteList (w : World) (siteName : string) (c : Client)
  : Effect (RewriteList * option error) :=
  structured_decode w (<["siteName" := [siteName]]> ∅)
    "/site?action=GetRewriteList" c.

(** [GetFile] (l. 421) *)
Definition GetFile (w : World) (path : string) (c : Client)
  : Effect (RespGetFile * option error) :=
  structured_decode w (<["path" := [path]]> ∅) "/files?action=GetFileBody" c.

(** [SetFile] (l. 437) *)
Definition SetFile (w : World) (path body : string) (c : Client)
  : Effect (RespMSG * option error) :=
  best_effort_decode w
    (<["path" := [path]]>
       (<["data" := [body]]> (<["encoding" := ["utf-8"]]> ∅)))
    "/files?action=SaveFileBody" c.

(** [GetDirUserINI] (l. 452) *)
Definition GetDirUserINI (w : World) (id : Z) (path : string) (c : Client)
  : Effect (RespUserINI * option error) :=
  structured_decode w
    (<["id" := [strconv.FormatInt id]]> (<["path" := [path]]> ∅))
    "/site?action=GetDirUserINI" c.

(** [SetDirUserINI] (l. 469) *)
Definition SetDirUserINI (w : World) (path : string) (c : Client)
  : Effect (RespMSG * option error) :=
  best_effort_decode w (<["path" := [path]]> ∅) "/site?action=SetDirUserINI" c.

(** [SetLogsOpen] (l. 482) *)
Definition SetLogsOpen (w : World) (id : Z) (c : Client)
  : Effect (RespMSG * option error) :=
  best_effort_decode w (<["id" := [strconv.FormatInt id]]> ∅)
    "/site?action=logsOpen" c.

(** [SetPath] (l. 495) *)
Definition SetPath (w : World) (id : Z) (path : string) (c : Client)
  : Effect (RespMSG * option error) :=
  best_effort_decode w
    (<["id" := [strconv.FormatInt id]]> (<["path" := [path]]> ∅))
    "/site?action=SetPath" c.

(** [SetRunPath] (l. 509) *)
Definition SetRunPath (w : World) (id : Z) (path : string) (c : Client)
  : Effect (RespMSG * option error) :=
  best_effort_decode w
    (<["id" := [strconv.FormatInt id]]> (<["runPath" := [path]]> ∅))
    "/site?action=SetSiteRunPath" c.

(** [SetHasPwd] (l. 523) *)
Definition SetHasPwd (w : World) (id : Z) (user pwd : string) (c : Client)
  : Effect (RespMSG * option error) :=
  best_effort_decode w
    (<["id" := [strconv.FormatInt id]]>
       (<["username" := [user]]> (<["password" := [pwd]]> ∅)))
    "/site?action=SetHasPwd" c.

(** [CloseHasPwd] (l. 538) *)
Definition CloseHasPwd (w : World) (id : Z) (c : Client)
  : Effect (RespMSG * option error) :=
  best_effort_decode w (<["id" := [strconv.FormatInt id]]> ∅)
    "/site?action=CloseHasPwd" c.

(** [CloseLimitNet] (l. 583) *)
Definition CloseLimitNet (w : World) (id : Z) (c : Client)
  : Effect (RespMSG * option error) :=
  best_effort_decode w (<["id" := [strconv.FormatInt id]]> ∅)
    "/site?action=CloseLimitNet" c.

(** [SetIndex] (l. 608) *)
Definition SetIndex (w : World) (id : Z) (Index : string) (c : Client)
  : Effect (RespMSG * option error) :=
  best_effort_decode w
    (<["id" := [strconv.FormatInt id]]> (<["Index" := [Index]]> ∅))
    "/site?action=SetIndex" c.

End MoreOperations.

(** ** The operations as a whole

    The exported methods of [*Client], each with its arguments, and what a
    call of one leaves behind: whether it panicked, the client after it
    and the requests it sent. *)

Definition trace_of {A : Type} (e : Effect A) : Effect unit :=
  then_ e (fun _ => tt).

Section Every.

Context {NetWork SystemTotal DiskInfo PHPVersions UpdateStatus RespSites
         RespAddSite RespMSG RespSiteBackups SiteDomains RewriteList
         RespGetFile RespUserINI RespLimitNet : Type}.
Context `{!Decodable NetWork} `{!Decodable SystemTotal} `{!Decodable DiskInfo}
        `{!Decodable PHPVersions} `{!Decodable UpdateStatus}
        `{!Decodable RespSites} `{!Decodable RespAddSite} `{!Decodable RespMSG}
        `{!Decodable RespSiteBackups} `{!Decodable SiteDomains}
        `{!Decodable RewriteList} `{!Decodable RespGetFile}
        `{!Decodable RespUserINI} `{!Decodable RespLimitNet}.
Context {WebNameT : Type} `{!Encodable WebNameT}.

Inductive Operation :=
| opRaw (data : gmap string (list string)) (endpoint : string)
| opGetNetWork
| opGetSystemTotal
| opGetDiskInfo
| opGetTaskCount
| opGetPHPVersion
| opGetUpdateStatus (check force : bool)
| opGetSites (params : ReqSites.t)
| opAddSite (params : ReqAddSite.t WebNameT)
| opDeleteSite (params : ReqDeleteSite)
| opStopSite (id : Z) (name : string)
| opStartSite (id : Z) (name : string)
| opSetSiteEdate (id : Z) (edate : string)
| opSetSitePS (id : Z) (ps : string)
| opGetSiteBackups (params : ReqSiteBackups.t)
| opSiteBackup (id : Z)
| opDeleteSiteBackup (id : Z)
| opGetSiteDomains (keyWords : list string)
| opAddDomain (id : Z) (webname domain : string)
| opDelDomain (id : Z) (webname domain : string) (port : Z)
| opGetRewriteList (siteName : string)
| opGetFile (path : string)
| opSetFile (path body : string)
| opGetDirUserINI (id : Z) (path : string)
| opSetDirUserINI (path : string)
| opSetLogsOpen (id : Z)
| opSetPath (id : Z) (path : string)
| opSetRunPath (id : Z) (path : string)
| opSetHasPwd (id : Z) (user pwd : string)
| opCloseHasPwd (id : Z)
| opGetLimitNet (id : Z)
| opSetLimitNet (id perServer perIP limitRate : Z)
| opCloseLimitNet (id : Z)
| opGetIndex (id : Z)
| opSetIndex (id : Z) (Index : string).

(** [Raw] apart, an operation chooses the keys of its parameters. *)
Definition typed (op : Operation) : bool :=
  match op with
  | opRaw _ _ => false
  | _ => true
  end.

Definition trace (op : Operation) (w : World) (c : Client) : Effect unit :=
  match op with
  | opRaw data endpoint => trace_of (Raw w data endpoint c)
  | opGetNetWork => trace_of (GetNetWork (NetWork:=NetWork) w c)
  | opGetSystemTotal => trace_of (GetSystemTotal (SystemTotal:=SystemTotal) w c)
  | opGetDiskInfo => trace_of (GetDiskInfo (DiskInfo:=DiskInfo) w c)
  | opGetTaskCount => trace_of (GetTaskCount w c)
  | opGetPHPVersion => trace_of (GetPHPVersion (PHPVersions:=PHPVersions) w c)
  | opGetUpdateStatus check force =>
      trace_of (GetUpdateStatus (UpdateStatus:=UpdateStatus) w check force c)
  | opGetSites params => trace_of (GetSites (RespSites:=RespSites) w params c)
  | opAddSite params => trace_of (AddSite (RespAddSite:=RespAddSite) w params c)
  | opDeleteSite params => trace_of (DeleteSite (RespMSG:=RespMSG) w params c)
  | opStopSite id name => trace_of (StopSite (RespMSG:=RespMSG) w id name c)
  | opStartSite id name => trace_of (StartSite (RespMSG:=RespMSG) w id name c)
  | opSetSiteEdate id edate =>
      trace_of (SetSiteEdate (RespMSG:=RespMSG) w id edate c)
  | opSetSitePS id ps => trace_of (SetSitePS (RespMSG:=RespMSG) w id ps c)
  | opGetSiteBackups params =>
      trace_of (GetSiteBackups (RespSiteBackups:=RespSiteBackups) w params c)
  | opSiteBackup id => trace_of (SiteBackup (RespMSG:=RespMSG) w id c)
  | opDeleteSiteBackup id =>
      trace_of (DeleteSiteBackup (RespMSG:=RespMSG) w id c)
  | opGetSiteDomains keyWords =>
      trace_of (GetSiteDomains (SiteDomains:=SiteDomains) w keyWords c)
  | opAddDomain id webname domain =>
      trace_of (AddDomain (RespMSG:=RespMSG) w id webname domain c)
  | opDelDomain id webname domain port =>
      trace_of (DelDomain (RespMSG:=RespMSG) w id webname domain port c)
  | opGetRewriteList siteName =>
      trace_of (GetRewriteList (RewriteList:=RewriteList) w siteName c)
  | opGetFile path => trace_of (GetFile (RespGetFile:=RespGetFile) w path c)
  | opSetFile path body => trace_of (SetFile (RespMSG:=RespMSG) w path body c)
  | opGetDirUserINI id path =>
      trace_of (GetDirUserINI (RespUserINI:=RespUserINI) w id path c)
  | opSetDirUserINI path => trace_of (SetDirUserINI (RespMSG:=RespMSG) w path c)
  | opSetLogsOpen id => trace_of (SetLogsOpen (RespMSG:=RespMSG) w id c)
  | opSetPath id path => trace_of (SetPath (RespMSG:=RespMSG) w id path c)
  | opSetRunPath id path => trace_of (SetRunPath (RespMSG:=RespMSG) w id path c)
  | opSetHasPwd id user pwd =>
      trace_of (SetHasPwd (RespMSG:=RespMSG) w id user pwd c)
  | opCloseHasPwd id => trace_of (CloseHasPwd (RespMSG:=RespMSG) w id c)
  | opGetLimitNet id => trace_of (GetLimitNet (RespLimitNet:=RespLimitNet) w id c)
  | opSetLimitNet id perServer perIP limitRate =>
      trace_of (SetLimitNet (RespMSG:=RespMSG) w id perServer perIP limitRate c)
  | opCloseLimitNet id => trace_of (CloseLimitNet (RespMSG:=RespMSG) w id c)
  | opGetIndex id => trace_of (GetIndex w id c)
  | opSetIndex id Index => trace_of (SetIndex (RespMSG:=RespMSG) w id Index c)
  end.

(** The operations of a program, run one after the other on the client,
    each in its own world; a panic ends the program. *)
Fixpoint program (ops : list (World * Operation)) (c : Client)
  : list (Effect unit) :=
  match ops with
  | [] => []
  | (w, op) :: rest =>
      let e := trace op w c in
      e :: match result e with
           | Panic _ => []
           | Return _ => program rest (after e)
           end
  end.

End Every.

(** More doubles: [json.Marshal] for a site name that may be missing, a
    missing name being one that cannot be marshalled, and a world without
    a valid address. *)
Module NameDouble.

Definition Marshal_name (name : option string) : bytes * option error :=
  match name with
  | Some s => (quote ++ s ++ quote, None)
  | None => ("", Some (json_Error "unsupported value"))
  end.

#[global] Instance name_Encodable : Encodable (option string) :=
  {| Marshal := Marshal_name |}.



Definition site (name : option string) : ReqAddSite.t (option string) :=
  {| ReqAddSite.WebName := name; ReqAddSite.Path := "/www/wwwroot/example.com";
     ReqAddSite.TypeID := 0; ReqAddSite.Type_ := "PHP"; ReqAddSite.Version := 74;
     ReqAddSite.Port := 80; ReqAddSite.PS := "example"; ReqAddSite.FTP := false;
     ReqAddSite.FTPUserName := ""; ReqAddSite.FTPPassword := "";
     ReqAddSite.SQL := false; ReqAddSite.Codeing := "utf8";
     ReqAddSite.DataUser := ""; ReqAddSite.DataPassword := "" |}.

End NameDouble.

(** * Properties *)

(** ** The digest *)







Example MD5_empty : MD5 "" = "d41d8cd98f00b204e9800998ecf8427e".
Proof. vm_compute. reflexivity. Qed.

Example MD5_abc : MD5 "abc" = "900150983cd24fb0d6963f7d28e17f72".
Proof. vm_compute. reflexivity. Qed.

Example MD5_two_blocks :
  MD5 "aaaaaaaaaaaaaaaaaaaaaaaaaaaaaaaaaaaaaaaaaaaaaaaaaaaaaaaa"
  = "3b0c8ac703f828b04c6c197006d17218".
Proof. vm_compute. reflexivity. Qed.

(** ** The form body *)

(** The loop over [data] leaves the caller's value under every key of
    [data] and the signing value under the others. *)
Lemma form_body_union (now : Z) (key : string) (data : gmap string (list string)) :
  form_body now key data = data ∪ signing_fields now key.
Proof.
  unfold form_body.
  apply (map_fold_weak_ind
           (fun r (m : gmap string (list string)) => r = m ∪ signing_fields now key)).
  - by rewrite (left_id_L ∅ (∪)).
  - intros i x m r _ ->. by rewrite insert_union_l.
Qed.

Lemma form_body_caller now key (data : gmap string (list string)) k v :
  data !! k = Some v -> form_body now key data !! k = Some v.
Proof. intros H. rewrite form_body_union. by apply lookup_union_Some_l. Qed.

Lemma form_body_signing now key (data : gmap string (list string)) k :
  data !! k = None -> form_body now key data !! k = signing_fields now key !! k.
Proof. intros H. rewrite form_body_union. by apply lookup_union_r. Qed.

(** ** The request executor *)

(** A call sends at most one request, the one built at l. 39-62. *)
Lemma btAPI_sent w data endpoint c req :
  req ∈ sent (btAPI w data endpoint c) ->
  exists u, url_Parse w (BTAddress c ++ endpoint) = inr u
            /\ cookiejar_New w = None
            /\ req = new_request w u data c
            /\ sent (btAPI w data endpoint c) = [req].
Proof.
  unfold btAPI.
  destruct (url_Parse w _) as [e|u]; [simpl; intros H; by apply elem_of_nil in H|].
  destruct (cookiejar_New w); [simpl; intros H; by apply elem_of_nil in H|].
  intros H. exists u.
  assert (req = new_request w u data c) as ->.
  { destruct (PostForm w _) as [e|resp]; [|destruct (400 <=? _); [|destruct (Body resp)]];
      simpl in H; apply list_elem_of_singleton in H; exact H. }
  repeat split.
  destruct (PostForm w _) as [e|resp]; [|destruct (400 <=? _); [|destruct (Body resp)]];
    reflexivity.
Qed.

(** What a call that reaches the network does, by the answer it gets. *)
Lemma btAPI_posted w data endpoint c u :
  url_Parse w (BTAddress c ++ endpoint) = inr u ->
  cookiejar_New w = None ->
  btAPI w data endpoint c =
    let req := new_request w u data c in
    match PostForm w req with
    | inl err =>
        {| result := Return ("", Some (url_Error err)); after := c; sent := [req] |}
    | inr resp =>
        if 400 <=? StatusCode resp then
          {| result := Return ("", Some (errors.New (Status resp)));
             after := c; sent := [req] |}
        else
          match Body resp with
          | inl err =>
              {| result := Return ("", Some err);
                 after := set_cookies c (Cookies resp); sent := [req] |}
          | inr respBody =>
              {| result := Return (respBody, None);
                 after := set_cookies c (Cookies resp); sent := [req] |}
          end
    end.
Proof. intros Hu Hj. unfold btAPI. rewrite Hu, Hj. reflexivity. Qed.



(** From [Hin : req ∈ sent (btAPI ...)]: the call reached the network,
    [req] is the request it built, and the call is rewritten to what it
    does with the answer. *)
Ltac posted Hin :=
  let u := fresh "u" in
  let Hu := fresh "Hu" in
  let Hj := fresh "Hj" in
  destruct (btAPI_sent _ _ _ _ _ Hin) as (u & Hu & Hj & -> & _);
  rewrite (btAPI_posted _ _ _ _ _ Hu Hj); cbv zeta.

(** C10. A caller's parameter under a reserved key, [request_token] or
    [request_time], is what the form carries under that key, in place of
    the signing value: the caller's parameters are written over the
    signing fields. *)
Theorem Raw_reserved_key_last_write_wins w data endpoint c req k v :
  req ∈ sent (Raw w data endpoint c) ->
  k = "request_token" \/ k = "request_time" ->
  data !! k = Some v ->
  req_form req !! k = Some v
  /\ req_form req = data ∪ signing_fields (time_Now_Unix w) (BTKey c)
  /\ is_Some (signing_fields (time_Now_Unix w) (BTKey c) !! k).
Proof.
  unfold Raw. intros Hin Hk Hd.
  destruct (btAPI_sent _ _ _ _ _ Hin) as (u & _ & _ & -> & _). simpl.
  split; [by apply form_body_caller|]. split; [apply form_body_union|].
  unfold signing_fields. destruct Hk as [-> | ->].
  - rewrite lookup_insert_eq. eauto.
  - rewrite lookup_insert_ne by discriminate. rewrite lookup_insert_eq. eauto.
Qed.

Lemma Raw_reserved_key_last_write_wins_witness :
  let w := Double.answers 1700000000 (Double.ok [] "{}") in
  req_form (new_request w {| Url_String := "http://panel.example:8888/x" |}
              {["request_token" := ["forged"]]} Double.client) !! "request_token"
  = Some ["forged"].
Proof.
  intros w.
  refine (proj1 (Raw_reserved_key_last_write_wins w
                   {["request_token" := ["forged"]]} "/x" Double.client _
                   "request_token" ["forged"] _ _ _)).
  - vm_compute. left.
  - left. reflexivity.
  - reflexivity.
Defined.

(** ** The held cookie set *)

(** The claim of C2 fails on a response of status 500: the client seeded
    with the set [A] still holds [A] after a response that carries [B]. *)
Lemma btAPI_status_error_keeps_cookies :
  PostForm (Double.answers 0 (Double.failed Double.B ""))
    (new_request (Double.answers 0 (Double.failed Double.B ""))
       {| Url_String := "http://panel.example:8888/x" |} ∅ Double.seeded)
  = inr (Double.failed Double.B "")
  /\ sent (btAPI (Double.answers 0 (Double.failed Double.B "")) ∅ "/x" Double.seeded)
     = [new_request (Double.answers 0 (Double.failed Double.B ""))
          {| Url_String := "http://panel.example:8888/x" |} ∅ Double.seeded]
  /\ cookies (after (btAPI (Double.answers 0 (Double.failed Double.B "")) ∅ "/x"
                       Double.seeded)) = Double.A
  /\ Double.A <> Cookies (Double.failed Double.B "").
Proof. repeat split. discriminate. Qed.

(** C2, amended. After a call that receives a response of status below
    400, the held cookie set is exactly the cookie set of that response,
    whatever was held before and also when the response carries none; a
    response of status 400 or more leaves the held set as it was. *)
Theorem btAPI_cookies_after_response w data endpoint c req resp :
  req ∈ sent (btAPI w data endpoint c) ->
  PostForm w req = inr resp ->
  cookies (after (btAPI w data endpoint c))
  = if 400 <=? StatusCode resp then cookies c else Cookies resp.
Proof.
  intros Hin Hresp.
  posted Hin. rewrite Hresp.
  destruct (400 <=? StatusCode resp); [reflexivity|].
  destruct (Body resp); reflexivity.
Qed.

Lemma btAPI_cookies_after_response_witness :
  cookies (after (btAPI (Double.answers 0 (Double.ok [] "{}")) ∅ "/x" Double.seeded))
  = [].
Proof.
  refine (btAPI_cookies_after_response (Double.answers 0 (Double.ok [] "{}")) ∅ "/x"
            Double.seeded _ (Double.ok [] "{}") _ _).
  - vm_compute. left.
  - reflexivity.
Defined.

(** C5. A call that fails at the transport layer, no response obtained,
    leaves the held cookie set, and the whole client, as before. *)
Theorem btAPI_transport_error_keeps_cookies w data endpoint c req err :
  req ∈ sent (btAPI w data endpoint c) ->
  PostForm w req = inl err ->
  cookies (after (btAPI w data endpoint c)) = cookies c
  /\ after (btAPI w data endpoint c) = c.
Proof.
  intros Hin Herr.
  posted Hin. rewrite Herr. split; reflexivity.
Qed.

Lemma btAPI_transport_error_keeps_cookies_witness :
  cookies (after (btAPI (Double.unreachable 0) ∅ "/x" Double.seeded)) = Double.A.
Proof.
  refine (proj1 (btAPI_transport_error_keeps_cookies (Double.unreachable 0) ∅ "/x"
                   Double.seeded _ Double.refused _ _)).
  - vm_compute. left.
  - reflexivity.
Defined.

(** The claim of C7 fails on a response of status 200 whose body cannot be
    read to its end: the call returns the read error. *)
Lemma btAPI_body_read_error :
  StatusCode (Double.cut []) < 400
  /\ result (btAPI (Double.answers 0 (Double.cut [])) ∅ "/x" Double.client)
     = Return ("", Some (io_Error "unexpected EOF")).
Proof. split; reflexivity. Qed.

(** C7, amended. A call that receives a response of status 400 or more
    returns no body and an error whose message is the status text; on a
    status below 400, when the body is read without error the call
    succeeds and returns the body as it is, and when reading the body
    fails the call returns that error and no body. *)
Theorem btAPI_classifies_response w data endpoint c req resp :
  req ∈ sent (btAPI w data endpoint c) ->
  PostForm w req = inr resp ->
  if 400 <=? StatusCode resp then
    exists e, result (btAPI w data endpoint c) = Return ("", Some e)
              /\ Error e = Status resp
  else
    match Body resp with
    | inr body => result (btAPI w data endpoint c) = Return (body, None)
    | inl e => result (btAPI w data endpoint c) = Return ("", Some e)
    end.
Proof.
  intros Hin Hresp.
  posted Hin. rewrite Hresp.
  destruct (400 <=? StatusCode resp).
  - eexists. split; reflexivity.
  - destruct (Body resp); reflexivity.
Qed.

Lemma btAPI_classifies_response_witness :
  result (btAPI (Double.answers 0 (Double.ok [] "{}")) ∅ "/x" Double.client)
  = Return ("{}", None).
Proof.
  refine (btAPI_classifies_response (Double.answers 0 (Double.ok [] "{}")) ∅ "/x"
            Double.client _ (Double.ok [] "{}") _ _).
  - vm_compute. left.
  - reflexivity.
Defined.

(** The cookies held at send time are set on the jar of the request. *)
Lemma btAPI_attaches_cookies w data endpoint c req :
  req ∈ sent (btAPI w data endpoint c) ->
  cookies c <> [] ->
  exists u, url_Parse w (BTAddress c ++ endpoint) = inr u
            /\ req_url req = Url_String u
            /\ req_Jar req = [(u, cookies c)].
Proof.
  intros Hin Hc.
  destruct (btAPI_sent _ _ _ _ _ Hin) as (u & Hu & _ & -> & _).
  exists u. repeat split; [exact Hu|]. simpl. unfold request_jar.
  destruct (cookies c) as [|ck cs]; [congruence | reflexivity].
Qed.

(** C6. When the held cookie set is not empty at send time, it is set on
    the jar of the outbound request before the request is posted; in a
    session this holds for the first call and for every later one, as long
    as the calls before it left the held set as it was. *)
Theorem session_attaches_cookies calls c i e req :
  cookies c <> [] ->
  session calls c !! i = Some e ->
  (forall j e', (j < i)%nat -> session calls c !! j = Some e' ->
                cookies (after e') = cookies c) ->
  req ∈ sent e ->
  exists u, req_url req = Url_String u /\ req_Jar req = [(u, cookies c)].
Proof.
  revert c i. induction calls as [|k rest IH]; intros c i Hc Hi Hkeep Hin.
  - discriminate.
  - destruct i as [|i]; simpl in Hi.
    + injection Hi as <-.
      destruct (btAPI_attaches_cookies _ _ _ _ _ Hin Hc) as (u & _ & Hurl & Hjar).
      eauto.
    + pose proof (Hkeep 0%nat _ ltac:(lia) eq_refl) as H0.
      destruct (result (btAPI (call_world k) (call_data k) (call_endpoint k) c))
        eqn:Hres; [discriminate|].
      rewrite <- H0.
      apply (IH _ i); [by rewrite H0 | exact Hi | | exact Hin].
      intros j e' Hj He'. rewrite H0.
      apply (Hkeep (S j)); [lia|]. simpl. by rewrite Hres.
Qed.

Lemma session_attaches_cookies_witness :
  exists u,
    req_url (new_request (Double.answers 2 (Double.failed Double.B ""))
               {| Url_String := "http://panel.example:8888/y" |} ∅ Double.seeded)
    = Url_String u
    /\ req_Jar (new_request (Double.answers 2 (Double.failed Double.B ""))
                  {| Url_String := "http://panel.example:8888/y" |} ∅ Double.seeded)
       = [(u, Double.A)].
Proof.
  refine (session_attaches_cookies
            [ {| call_world := Double.unreachable 1; call_data := ∅;
                 call_endpoint := "/x" |};
              {| call_world := Double.answers 2 (Double.failed Double.B "");
                 call_data := ∅; call_endpoint := "/y" |} ]
            Double.seeded 1%nat _ _ _ _ _ _).
  - discriminate.
  - reflexivity.
  - intros j e' Hj. destruct j as [|j]; [|lia]. intros [= <-]. reflexivity.
  - vm_compute. left.
Defined.

(** ** Decoding *)

(** C8. A structured-decode operation, such as [GetNetWork], given a
    response of status below 400 whose body decodes into the typed result,
    returns the decoded value, every field of it, and no error; given a
    body that does not decode, it returns the decode error and the zero
    value of the result type. *)
Theorem structured_decode_body {T : Type} `{!Decodable T}
    w data endpoint c req resp body :
  req ∈ sent (structured_decode (T:=T) w data endpoint c) ->
  PostForm w req = inr resp ->
  StatusCode resp < 400 ->
  Body resp = inr body ->
  (forall v, Unmarshal body zero = (v, None) ->
             result (structured_decode (T:=T) w data endpoint c) = Return (v, None))
  /\ (forall v e, Unmarshal body zero = (v, Some e) ->
                  result (structured_decode (T:=T) w data endpoint c)
                  = Return (zero, Some e)).
Proof.
  unfold structured_decode, then_. simpl. intros Hin Hresp Hst Hbody.
  posted Hin. rewrite Hresp.
  destruct (Z.leb_spec 400 (StatusCode resp)); [lia|].
  rewrite Hbody. simpl. unfold decode.
  split; [intros v Hv | intros v e Hv]; rewrite Hv; reflexivity.
Qed.

Lemma structured_decode_body_witness :
  result (GetNetWork (NetWork:=bool) (Double.answers 0 (Double.ok [] "true"))
            Double.client)
  = Return (true, None).
Proof.
  refine (proj1 (structured_decode_body (T:=bool)
                   (Double.answers 0 (Double.ok [] "true")) ∅
                   "/system?action=GetNetWork" Double.client _
                   (Double.ok [] "true") "true" _ _ _ _) true _).
  - vm_compute. left.
  - reflexivity.
  - reflexivity.
  - reflexivity.
  - reflexivity.
Defined.

(** A structured-decode operation hands over the error of [btAPI] as it is. *)
Lemma structured_decode_propagates {T : Type} `{!Decodable T}
    w data endpoint c resp err :
  result (btAPI w data endpoint c) = Return (resp, Some err) ->
  result (structured_decode (T:=T) w data endpoint c) = Return (zero, Some err).
Proof. unfold structured_decode, then_. simpl. intros ->. reflexivity. Qed.

(** The claim of C3 fails on a response of status 500 whose body is
    well-formed: [DeleteSite] returns the zero value and the decode error
    of an empty input. *)
Lemma DeleteSite_status_error_body_lost :
  Unmarshal "true" (zero : bool) = (true, None)
  /\ result (DeleteSite (RespMSG:=bool)
               (Double.answers 0 (Double.failed [] "true"))
               {| ID := 1; WebName := "example.com"; FTP := false;
                  Database := false; Path := false |} Double.client)
     = Return (false, Some (json_Error "invalid input")).
Proof. split; reflexivity. Qed.

(** C3, amended. A best-effort-decode operation, such as [DeleteSite],
    on a response of status 400 or more drops the error of the executor
    and decodes the bytes the executor returned, which are empty, the
    response body having been discarded: whatever that body was, the
    operation returns the zero value and the decode error of an empty
    input. *)
Theorem best_effort_decode_status_error {T : Type} `{!Decodable T}
    w data endpoint c req resp :
  req ∈ sent (best_effort_decode (T:=T) w data endpoint c) ->
  PostForm w req = inr resp ->
  400 <= StatusCode resp ->
  exists e, snd (Unmarshal "" (zero : T)) = Some e
            /\ result (best_effort_decode (T:=T) w data endpoint c)
               = Return (zero, Some e).
Proof.
  unfold best_effort_decode, then_. simpl. intros Hin Hresp Hst.
  posted Hin. rewrite Hresp.
  destruct (Z.leb_spec 400 (StatusCode resp)); [|lia].
  simpl. unfold decode.
  pose proof (Unmarshal_empty (zero : T)) as Hne.
  destruct (Unmarshal "" (zero : T)) as [v [e|]]; simpl in *; [|congruence].
  eauto.
Qed.

Lemma best_effort_decode_status_error_witness :
  exists e, snd (Unmarshal "" (zero : bool)) = Some e
            /\ result (DeleteSite (RespMSG:=bool)
                         (Double.answers 0 (Double.failed [] "true"))
                         {| ID := 1; WebName := "example.com"; FTP := false;
                            Database := false; Path := false |} Double.client)
               = Return (zero, Some e).
Proof.
  refine (best_effort_decode_status_error (T:=bool)
            (Double.answers 0 (Double.failed [] "true")) _
            "/site?action=DeleteSite" Double.client _
            (Double.failed [] "true") _ _ _).
  - vm_compute. left.
  - reflexivity.
  - vm_compute. discriminate.
Defined.

(** So does [GetIndex]. *)
Lemma GetIndex_propagates w id c resp err :
  result (btAPI w (<["id" := [strconv.FormatInt id]]> ∅) "/site?action=GetIndex" c)
  = Return (resp, Some err) ->
  result (GetIndex w id c) = Return ("", Some err).
Proof. unfold GetIndex, then_. simpl. intros ->. reflexivity. Qed.

(** [GetLimitNet] replaces any error of [btAPI] by a new one made of the
    bytes [btAPI] returned with it. *)
Lemma GetLimitNet_replaces_error {T : Type} `{!Decodable T} w id c resp err :
  result (btAPI w (<["id" := [strconv.FormatInt id]]> ∅)
            "/site?action=GetLimitNet" c) = Return (resp, Some err) ->
  result (GetLimitNet (RespLimitNet:=T) w id c)
  = Return (zero, Some (errors.New resp)).
Proof. unfold GetLimitNet, then_. simpl. intros ->. reflexivity. Qed.

(** C4 on the code. With the panel unreachable [btAPI] returns the
    transport error, [GetNetWork] and [GetIndex] hand it over as it is,
    and [GetLimitNet] returns another error, of empty message. *)
Theorem GetLimitNet_transport_error_replaced :
  result (btAPI (Double.unreachable 0) (<["id" := [strconv.FormatInt 1]]> ∅)
            "/site?action=GetLimitNet" Double.client)
  = Return ("", Some (url_Error Double.refused))
  /\ result (GetNetWork (NetWork:=bool) (Double.unreachable 0) Double.client)
     = Return (false, Some (url_Error Double.refused))
  /\ result (GetLimitNet (RespLimitNet:=bool) (Double.unreachable 0) 1 Double.client)
     = Return (false, Some (errors.New ""))
  /\ result (GetIndex (Double.unreachable 0) 1 Double.client)
     = Return ("", Some (url_Error Double.refused))
  /\ errors.New "" <> url_Error Double.refused
  /\ Error (errors.New "") = "".
Proof. repeat split. discriminate. Qed.

(** ** strconv.Atoi against the decimal reading *)

Lemma bytes_of_string_range (s : string) :
  Forall (fun b => 0 <= b < 256) (bytes_of_string s).
Proof.
  unfold bytes_of_string. induction s as [|a s IH]; simpl; constructor; [|exact IH].
  unfold byte_of_ascii. pose proof (N_ascii_bounded a). lia.
Qed.

Lemma digits_value_ge cs : forall n v,
  0 <= n -> digits_value cs n = Some v -> n <= v.
Proof.
  induction cs as [|c rest IH]; simpl; intros n v Hn Hv.
  - injection Hv as <-. lia.
  - destruct (is_digit c) eqn:Hd; [|discriminate].
    unfold is_digit in Hd. apply IH in Hv; lia.
Qed.

Lemma digits_value_lt cs : forall n v,
  0 <= n -> digits_value cs n = Some v -> v < (n + 1) * 10 ^ Z.of_nat (length cs).
Proof.
  induction cs as [|c rest IH]; intros n v Hn Hv.
  - simpl in *. injection Hv as <-. lia.
  - simpl in Hv. destruct (is_digit c) eqn:Hd; [|discriminate].
    unfold is_digit in Hd. apply IH in Hv; [|lia].
    change (length (c :: rest)) with (S (length rest)).
    rewrite Nat2Z.inj_succ, Z.pow_succ_r by lia.
    assert (0 < 10 ^ Z.of_nat (length rest)) by (apply Z.pow_pos_nonneg; lia).
    nia.
Qed.

Lemma Atoi_fast_spec cs : forall n,
  Forall (fun b => 0 <= b < 256) cs ->
  strconv.Atoi_fast cs n =
    match digits_value cs n with
    | Some v => (v, None)
    | None => (0, Some strconv.ErrSyntax)
    end.
Proof.
  induction cs as [|c rest IH]; intros n Hb; [reflexivity|].
  inversion Hb as [|? ? Hc Hrest]; subst. simpl.
  unfold is_digit.
  destruct (Z.leb_spec 48 c); destruct (Z.leb_spec c 57); simpl.
  - rewrite Z.mod_small by lia.
    destruct (Z.ltb_spec 9 (c - 48)); [lia|]. apply IH, Hrest.
  - rewrite Z.mod_small by lia.
    destruct (Z.ltb_spec 9 (c - 48)); [reflexivity | lia].
  - replace ((c - 48) mod 256) with (c + 208)
      by (apply (Z.mod_unique _ _ (-1)); lia).
    destruct (Z.ltb_spec 9 (c + 208)); [reflexivity | lia].
  - lia.
Qed.

Lemma ParseUint_loop_nondigit c rest n :
  is_digit c = false ->
  strconv.ParseUint_loop (c :: rest) n = (0, Some strconv.ErrSyntax).
Proof.
  unfold is_digit. intros Hd. simpl. unfold strconv.digit_of. rewrite Hd.
  destruct (Z.leb_spec 97 (strconv.lower c)); simpl; [|reflexivity].
  destruct (strconv.lower c <=? 122); [|reflexivity].
  destruct (Z.leb_spec 10 (strconv.lower c - 97 + 10)); [reflexivity | lia].
Qed.

Lemma ParseUint_loop_digit c rest n :
  is_digit c = true ->
  strconv.ParseUint_loop (c :: rest) n =
    if 1844674407370955162 <=? n then (strconv.maxUint64, Some strconv.ErrRange)
    else
      let n1 := (n * 10 + (c - 48)) mod 2 ^ 64 in
      if (n1 <? n * 10) || (strconv.maxUint64 <? n1)
      then (strconv.maxUint64, Some strconv.ErrRange)
      else strconv.ParseUint_loop rest n1.
Proof.
  unfold is_digit. intros Hd. simpl. unfold strconv.digit_of. rewrite Hd.
  apply andb_prop in Hd as [H1 H2]. apply Z.leb_le in H1, H2.
  destruct (Z.leb_spec 10 (c - 48)); [lia | reflexivity].
Qed.

Lemma ParseUint_loop_spec cs : forall n,
  0 <= n < 2 ^ 64 ->
  match digits_value cs n with
  | Some v =>
      strconv.ParseUint_loop cs n =
        if v <? 2 ^ 64 then (v, None)
        else (strconv.maxUint64, Some strconv.ErrRange)
  | None =>
      strconv.ParseUint_loop cs n = (0, Some strconv.ErrSyntax)
      \/ strconv.ParseUint_loop cs n = (strconv.maxUint64, Some strconv.ErrRange)
  end.
Proof.
  unfold strconv.maxUint64.
  change (2 ^ 64) with 18446744073709551616.
  change (18446744073709551616 - 1) with 18446744073709551615.
  induction cs as [|c rest IH]; intros n Hn.
  - simpl. destruct (Z.ltb_spec n 18446744073709551616); [reflexivity | lia].
  - cbn [digits_value]. destruct (is_digit c) eqn:Hd.
    2:{ left. by apply ParseUint_loop_nondigit. }
    rewrite (ParseUint_loop_digit _ _ _ Hd). cbv zeta.
    change (2 ^ 64) with 18446744073709551616.
    unfold strconv.maxUint64. change (2 ^ 64 - 1) with 18446744073709551615.
    unfold is_digit in Hd. apply andb_prop in Hd as [H1 H2].
    apply Z.leb_le in H1, H2.
    assert (Hover : 18446744073709551616 <= n * 10 + (c - 48) ->
               match digits_value rest (n * 10 + (c - 48)) with
               | Some v =>
                   (18446744073709551615, Some strconv.ErrRange) =
                   (if v <? 18446744073709551616 then (v, None)
                    else (18446744073709551615, Some strconv.ErrRange))
               | None =>
                   (18446744073709551615, Some strconv.ErrRange)
                   = (0, Some strconv.ErrSyntax)
                   \/ (18446744073709551615, Some strconv.ErrRange)
                      = (18446744073709551615, Some strconv.ErrRange)
               end).
    { intros Hge. destruct (digits_value rest _) as [v|] eqn:Hv; [|by right].
      apply digits_value_ge in Hv; [|lia].
      destruct (Z.ltb_spec v 18446744073709551616); [lia | reflexivity]. }
    destruct (Z.leb_spec 1844674407370955162 n); [apply Hover; lia|].
    destruct (Z.le_gt_cases 18446744073709551616 (n * 10 + (c - 48))) as [Hge|Hlt].
    + replace ((n * 10 + (c - 48)) mod 18446744073709551616)
        with (n * 10 + (c - 48) - 18446744073709551616)
        by (apply (Z.mod_unique _ _ 1); lia).
      destruct (Z.ltb_spec (n * 10 + (c - 48) - 18446744073709551616) (n * 10));
        [|lia].
      simpl. apply Hover; lia.
    + rewrite Z.mod_small by lia.
      destruct (Z.ltb_spec (n * 10 + (c - 48)) (n * 10)); [lia|].
      destruct (Z.ltb_spec 18446744073709551615 (n * 10 + (c - 48))); [lia|].
      simpl. apply IH. lia.
Qed.

Lemma ParseInt_unsigned_spec neg ds :
  ds <> [] ->
  match digits_value ds 0 with
  | Some v =>
      let n := if neg : bool then - v else v in
      if fits_int n then strconv.ParseInt_unsigned neg ds = (n, None)
      else snd (strconv.ParseInt_unsigned neg ds) = Some strconv.ErrRange
  | None => snd (strconv.ParseInt_unsigned neg ds) <> None
  end.
Proof.
  intros Hne. unfold strconv.ParseInt_unsigned, strconv.ParseUint, fits_int.
  unfold strconv.IntSize, strconv.maxUint64.
  change (2 ^ (64 - 1)) with 9223372036854775808.
  change (- 9223372036854775808) with (-9223372036854775808).
  pose proof (ParseUint_loop_spec ds 0 ltac:(lia)) as Hloop.
  unfold strconv.maxUint64 in Hloop.
  change (2 ^ 64) with 18446744073709551616 in *.
  destruct ds as [|d ds']; [congruence|].
  destruct (digits_value (d :: ds') 0) as [v|] eqn:Hv.
  - apply digits_value_ge in Hv; [|lia]. rewrite Hloop. cbv zeta.
    destruct (Z.ltb_spec v 18446744073709551616).
    + destruct neg; simpl;
        repeat match goal with
               | |- context [Z.leb ?a ?b] => destruct (Z.leb_spec a b)
               | |- context [Z.ltb ?a ?b] => destruct (Z.ltb_spec a b)
               end; simpl; try reflexivity; try lia.
    + destruct neg; simpl;
        repeat match goal with
               | |- context [Z.leb ?a ?b] => destruct (Z.leb_spec a b)
               | |- context [Z.ltb ?a ?b] => destruct (Z.ltb_spec a b)
               end; simpl; try reflexivity; try lia.
  - destruct Hloop as [-> | ->]; [simpl; discriminate|].
    destruct neg; simpl; discriminate.
Qed.

Lemma ParseInt_spec bs :
  match decimal_bytes bs with
  | Some n =>
      if fits_int n then strconv.ParseInt bs = (n, None)
      else snd (strconv.ParseInt bs) = Some strconv.ErrRange
  | None => snd (strconv.ParseInt bs) <> None
  end.
Proof.
  destruct bs as [|c rest]; [simpl; discriminate|].
  unfold decimal_bytes, strconv.ParseInt.
  destruct (Z.eqb_spec c 43) as [->|H43]; [|destruct (Z.eqb_spec c 45) as [->|H45]].
  - simpl. destruct rest as [|d ds]; [simpl; discriminate|].
    apply (ParseInt_unsigned_spec false). discriminate.
  - destruct rest as [|d ds]; [simpl; discriminate|].
    pose proof (ParseInt_unsigned_spec true (d :: ds) ltac:(discriminate)) as H.
    destruct (digits_value (d :: ds) 0); exact H.
  - apply (ParseInt_unsigned_spec false). discriminate.
Qed.

(** [Atoi] reads the decimal integer strings that denote an [int], and
    reports an error on every other string. *)
Lemma Atoi_spec (s : string) :
  match decimal_integer s with
  | Some n =>
      if fits_int n then strconv.Atoi s = (n, None)
      else snd (strconv.Atoi s) = Some strconv.ErrRange
  | None => snd (strconv.Atoi s) <> None
  end.
Proof.
  unfold decimal_integer, strconv.Atoi.
  pose proof (bytes_of_string_range s) as Hb.
  destruct (bytes_of_string s) as [|c rest] eqn:Hbs; [simpl; discriminate|].
  destruct ((0 <? Z.of_nat (length (c :: rest)))
            && (Z.of_nat (length (c :: rest)) <? 19)) eqn:Hlen.
  2:{ apply ParseInt_spec. }
  apply andb_prop in Hlen as [_ Hlen]. apply Z.ltb_lt in Hlen.
  change (length (c :: rest)) with (S (length rest)) in Hlen.
  inversion Hb as [|? ? Hc Hrest]; subst.
  assert (Hfit : forall ds v, (length ds <= 18)%nat -> digits_value ds 0 = Some v ->
                 fits_int v = true /\ fits_int (- v) = true).
  { intros ds v Hl Hv. pose proof (digits_value_ge ds 0 v ltac:(lia) Hv).
    apply digits_value_lt in Hv; [|lia].
    assert (10 ^ Z.of_nat (length ds) <= 10 ^ 18)
      by (apply Z.pow_le_mono_r; lia).
    change (10 ^ 18) with 1000000000000000000 in *.
    unfold fits_int, strconv.IntSize.
    change (2 ^ (64 - 1)) with 9223372036854775808.
    split; apply andb_true_intro; split; apply Z.leb_le; lia. }
  unfold decimal_bytes.
  destruct (Z.eqb_spec c 45) as [->|H45]; [|destruct (Z.eqb_spec c 43) as [->|H43]].
  - simpl. destruct rest as [|d ds]; [simpl; discriminate|].
    destruct (Z.ltb_spec (Z.of_nat (length (d :: ds))) 1);
      [simpl in *; lia|]. cbn [andb orb].
    rewrite (Atoi_fast_spec _ 0 Hrest).
    destruct (digits_value (d :: ds) 0) as [v|] eqn:Hv; [|simpl; discriminate].
    simpl. destruct (Hfit (d :: ds) v) as [_ ->];
      [cbn [length] in *; lia | exact Hv | reflexivity].
  - simpl. destruct rest as [|d ds]; [simpl; discriminate|].
    destruct (Z.ltb_spec (Z.of_nat (length (d :: ds))) 1);
      [simpl in *; lia|]. cbn [andb orb].
    rewrite (Atoi_fast_spec _ 0 Hrest).
    destruct (digits_value (d :: ds) 0) as [v|] eqn:Hv; [|simpl; discriminate].
    simpl. destruct (Hfit (d :: ds) v) as [-> _];
      [cbn [length] in *; lia | exact Hv | reflexivity].
  - cbn [orb andb].
    rewrite (Atoi_fast_spec _ 0 Hb).
    destruct (digits_value (c :: rest) 0) as [v|] eqn:Hv; [|simpl; discriminate].
    destruct (Hfit (c :: rest) v) as [-> _];
      [cbn [length] in *; lia | exact Hv | reflexivity].
Qed.

(** What [GetTaskCount] makes of the bytes [btAPI] returned. *)
Lemma GetTaskCount_body (body : bytes) :
  match strconv.Atoi body with
  | (_, Some _) => 0
  | (dec, None) => dec
  end
  = match decimal_integer body with
    | Some n => if fits_int n then n else 0
    | None => 0
    end.
Proof.
  pose proof (Atoi_spec body) as H.
  destruct (decimal_integer body) as [n|].
  - destruct (fits_int n); [by rewrite H|].
    destruct (strconv.Atoi body) as [x [e|]]; [reflexivity | discriminate].
  - destruct (strconv.Atoi body) as [x [e|]]; [reflexivity | by destruct H].
Qed.

(** The claim of C9 fails on a body of twenty digits: it is a decimal
    integer string, and [GetTaskCount] returns 0. *)
Lemma GetTaskCount_out_of_range :
  decimal_integer "99999999999999999999" = Some 99999999999999999999
  /\ result (GetTaskCount
               (Double.answers 0 (Double.ok [] "99999999999999999999"))
               Double.client)
     = Return 0.
Proof. split; vm_compute; reflexivity. Qed.

(** C9, amended. [GetTaskCount] returns the integer the response body
    denotes when the body is a decimal integer string whose value fits
    [int]; it returns 0, and no error, when the body is not a decimal
    integer string (empty or not numeric) or is one out of the range of
    [int], when the body cannot be read, and when the request fails at the
    transport or at the HTTP-status level. *)
Theorem GetTaskCount_count w c req :
  req ∈ sent (GetTaskCount w c) ->
  result (GetTaskCount w c)
  = Return
      match PostForm w req with
      | inl _ => 0
      | inr resp =>
          if 400 <=? StatusCode resp then 0
          else
            match Body resp with
            | inl _ => 0
            | inr body =>
                match decimal_integer body with
                | Some n => if fits_int n then n else 0
                | None => 0
                end
            end
      end.
Proof.
  unfold GetTaskCount, then_. simpl. intros Hin.
  posted Hin.
  destruct (PostForm w _) as [err|resp]; [reflexivity|].
  destruct (400 <=? StatusCode resp); [reflexivity|].
  destruct (Body resp) as [err|body]; [reflexivity|].
  simpl. f_equal. apply GetTaskCount_body.
Qed.

Lemma GetTaskCount_count_witness :
  result (GetTaskCount (Double.answers 0 (Double.ok [] "3")) Double.client)
  = Return 3.
Proof.
  refine (GetTaskCount_count (Double.answers 0 (Double.ok [] "3")) Double.client _ _).
  vm_compute. left.
Defined.

Example GetTaskCount_empty_body :
  result (GetTaskCount (Double.answers 0 (Double.ok [] "")) Double.client) = Return 0.
Proof. reflexivity. Qed.

Example GetTaskCount_not_numeric :
  result (GetTaskCount (Double.answers 0 (Double.ok [] "none")) Double.client)
  = Return 0.
Proof. reflexivity. Qed.

Example GetTaskCount_unreachable :
  result (GetTaskCount (Double.unreachable 0) Double.client) = Return 0.
Proof. reflexivity. Qed.

(** * Further properties of the request executor *)

(** The shapes of what [btAPI] returns. *)
Lemma btAPI_returns w data endpoint c :
  match result (btAPI w data endpoint c) with
  | Panic _ => sent (btAPI w data endpoint c) = [] /\ after (btAPI w data endpoint c) = c
  | Return (resp, Some _) =>
      resp = "" /\ length (sent (btAPI w data endpoint c)) = 1%nat
  | Return (_, None) => length (sent (btAPI w data endpoint c)) = 1%nat
  end.
Proof.
  unfold btAPI.
  destruct (url_Parse w _) as [e|u]; [split; reflexivity|].
  destruct (cookiejar_New w); [split; reflexivity|].
  destruct (PostForm w _) as [e|resp]; [split; reflexivity|].
  destruct (400 <=? StatusCode resp); [split; reflexivity|].
  destruct (Body resp); [split; reflexivity | reflexivity].
Qed.


Lemma trace_of_then {A B : Type} (e : Effect A) (k : A -> B) :
  trace_of (then_ e k) = trace_of e.
Proof. destruct e as [[err|a] c reqs]; reflexivity. Qed.

Lemma trace_of_btAPI_sent w data endpoint c :
  sent (trace_of (btAPI w data endpoint c)) = sent (btAPI w data endpoint c).
Proof. reflexivity. Qed.

Lemma trace_of_btAPI_after w data endpoint c :
  after (trace_of (btAPI w data endpoint c)) = after (btAPI w data endpoint c).
Proof. reflexivity. Qed.

(** A map built from literal keys holds no key it was not given. *)
Ltac absent_key :=
  repeat match goal with
         | |- context [if ?b then _ else _] => destruct b
         end;
  repeat (rewrite lookup_insert_ne by done);
  apply lookup_empty.

Section EveryOperation.

Context {NetWork SystemTotal DiskInfo PHPVersions UpdateStatus RespSites
         RespAddSite RespMSG RespSiteBackups SiteDomains RewriteList
         RespGetFile RespUserINI RespLimitNet : Type}.
Context `{!Decodable NetWork} `{!Decodable SystemTotal} `{!Decodable DiskInfo}
        `{!Decodable PHPVersions} `{!Decodable UpdateStatus}
        `{!Decodable RespSites} `{!Decodable RespAddSite} `{!Decodable RespMSG}
        `{!Decodable RespSiteBackups} `{!Decodable SiteDomains}
        `{!Decodable RewriteList} `{!Decodable RespGetFile}
        `{!Decodable RespUserINI} `{!Decodable RespLimitNet}.
Context {WebNameT : Type} `{!Encodable WebNameT}.

Local Notation "'Op'" := (@Operation WebNameT).
Local Notation "'run_op'" :=
  (@trace NetWork SystemTotal DiskInfo PHPVersions UpdateStatus RespSites
     RespAddSite RespMSG RespSiteBackups SiteDomains RewriteList RespGetFile
     RespUserINI RespLimitNet _ _ _ _ _ _ _ _ _ _ _ _ _ _ WebNameT _).
Local Notation "'run'" :=
  (@program NetWork SystemTotal DiskInfo PHPVersions UpdateStatus RespSites
     RespAddSite RespMSG RespSiteBackups SiteDomains RewriteList RespGetFile
     RespUserINI RespLimitNet _ _ _ _ _ _ _ _ _ _ _ _ _ _ WebNameT _).

(** Every operation is one call of [btAPI], with parameters that hold no
    reserved key unless the caller of [Raw] put one, or, for [AddSite]
    whose name cannot be marshalled, no call at all. *)
Lemma trace_cases (op : Op) w c :
  (exists data endpoint,
      (typed op = true ->
       data !! "request_token" = None /\ data !! "request_time" = None)
      /\ run_op op w c = trace_of (btAPI w data endpoint c))
  \/ run_op op w c = {| result := Return tt; after := c; sent := [] |}.
Proof.
  destruct op; cbn [trace typed];
    try (left; eexists _, _; split;
         [ try discriminate; intros _; split
         | first [ reflexivity | apply trace_of_then ] ]);
    try (unfold DeleteSite_data, GetSiteDomains_data, GetUpdateStatus_data,
           GetSites_data, GetSiteBackups_data; absent_key).
  unfold AddSite. destruct (Marshal _) as [webname [err|]].
  - right. reflexivity.
  - left. eexists _, _. split; [|apply trace_of_then].
    intros _. split; unfold AddSite_data; absent_key.
Qed.

(** What one operation keeps: the address, the key and the timeout of the
    client; it sends at most one request, under the timeout of the client. *)
Lemma trace_step (op : Op) w c :
  BTAddress (after (run_op op w c)) = BTAddress c
  /\ BTKey (after (run_op op w c)) = BTKey c
  /\ Timeout (after (run_op op w c)) = Timeout c
  /\ Forall (fun req => req_Timeout req = Timeout c) (sent (run_op op w c))
  /\ (length (sent (run_op op w c)) <= 1)%nat.
Proof.
  destruct (trace_cases op w c) as [(data & endpoint & _ & ->) | ->].
  2:{ simpl. repeat split; [constructor | lia]. }
  rewrite trace_of_btAPI_sent, trace_of_btAPI_after. unfold btAPI.
  destruct (url_Parse w _) as [e|u]; [simpl; repeat split; [constructor | lia]|].
  destruct (cookiejar_New w); [simpl; repeat split; [constructor | lia]|].
  destruct (PostForm w _) as [e|resp];
    [|destruct (400 <=? StatusCode resp); [|destruct (Body resp)]];
    simpl; repeat split; repeat constructor.
Qed.

Lemma program_invariant (ops : list (World * Op)) : forall c,
  Forall (fun e =>
            BTAddress (after e) = BTAddress c
            /\ BTKey (after e) = BTKey c
            /\ Timeout (after e) = Timeout c
            /\ Forall (fun req => req_Timeout req = Timeout c) (sent e)
            /\ (length (sent e) <= 1)%nat)
         (run ops c).
Proof.
  induction ops as [|[w op] rest IH]; intros c; [constructor|].
  cbn [program].
  destruct (trace_step op w c) as (Ha & Hk & Ht & Hreq & Hlen).
  constructor; [by repeat split|].
  destruct (result (run_op op w c)); [constructor|].
  eapply Forall_impl; [apply IH|]. cbv beta.
  intros e (Ha' & Hk' & Ht' & Hreq' & Hlen').
  rewrite Ha', Hk', Ht', Ha, Hk, Ht. repeat split; [|exact Hlen'].
  eapply Forall_impl; [exact Hreq'|]. cbv beta. intros req ->. exact Ht.
Qed.



(** X3. The address, the key and the timeout given at construction are
    those of the client after every operation of a program: only the held
    cookie set ever changes. *)
Theorem program_keeps_configuration (ops : list (World * Op)) (c : Client) :
  Forall (fun e =>
            BTAddress (after e) = BTAddress c
            /\ BTKey (after e) = BTKey c
            /\ Timeout (after e) = Timeout c)
         (run ops c).
Proof.
  eapply Forall_impl; [apply program_invariant|]. cbv beta. tauto.
Qed.

(** X4. A client made by [NewClient] holds no cookie, and every request
    of every program run on it is sent under the first timeout given, or
    under none (0) when none was given. *)
Theorem NewClient_timeout (ops : list (World * Op)) address key timeout :
  cookies (NewClient address key timeout) = []
  /\ BTAddress (NewClient address key timeout) = address
  /\ BTKey (NewClient address key timeout) = key
  /\ Forall (fun e => Forall (fun req => req_Timeout req = hd 0 timeout) (sent e))
            (run ops (NewClient address key timeout)).
Proof.
  assert (Ht : Timeout (NewClient address key timeout) = hd 0 timeout).
  { unfold NewClient. destruct timeout as [|t ts]; [reflexivity|].
    simpl. destruct (Z.eqb_spec t 0) as [->|]; reflexivity. }
  repeat split.
  - unfold NewClient. destruct timeout as [|t ts]; [reflexivity|].
    destruct (negb (t =? 0)); reflexivity.
  - unfold NewClient. destruct timeout as [|t ts]; [reflexivity|].
    destruct (negb (t =? 0)); reflexivity.
  - unfold NewClient. destruct timeout as [|t ts]; [reflexivity|].
    destruct (negb (t =? 0)); reflexivity.
  - rewrite <- Ht. eapply Forall_impl; [apply program_invariant|]. cbv beta. tauto.
Qed.

(** X5. No operation other than [Raw] can override the signing fields:
    its request carries the decimal Unix time of the call under
    [request_time] and, under [request_token], the MD5 of that time
    followed by the MD5 of the key, which is what the panel verifies. *)
Theorem typed_operation_is_signed (op : Op) (w : World) (c : Client) (req : Request) :
  typed op = true ->
  req ∈ sent (run_op op w c) ->
  exists t,
    t = strconv.FormatInt (time_Now_Unix w)
    /\ req_form req !! "request_time" = Some [t]
    /\ req_form req !! "request_token" = Some [MD5 (t ++ MD5 (BTKey c))].
Proof.
  intros Ht Hin.
  destruct (trace_cases op w c) as [(data & endpoint & Hd & Heq) | Heq];
    rewrite Heq in Hin; [|by apply elem_of_nil in Hin].
  destruct (Hd Ht) as [Htok Htime]. rewrite trace_of_btAPI_sent in Hin.
  destruct (btAPI_sent _ _ _ _ _ Hin) as (u & _ & _ & -> & _).
  eexists. split; [reflexivity|]. simpl.
  rewrite !form_body_signing by assumption. unfold signing_fields.
  rewrite lookup_insert_ne by done. rewrite !lookup_insert_eq. split; reflexivity.
Qed.

(** X6. After every operation, also one that drops the error of the
    executor or whose decoding fails, the held cookie set is the cookie
    set of the response when one of status below 400 was received, and the
    set held before otherwise. *)
Theorem operation_cookies (op : Op) (w : World) (c : Client) (req : Request) :
  req ∈ sent (run_op op w c) ->
  cookies (after (run_op op w c))
  = match PostForm w req with
    | inl _ => cookies c
    | inr resp => if 400 <=? StatusCode resp then cookies c else Cookies resp
    end.
Proof.
  intros Hin.
  destruct (trace_cases op w c) as [(data & endpoint & _ & Heq) | Heq];
    rewrite Heq in *; [|by apply elem_of_nil in Hin].
  rewrite trace_of_btAPI_sent in Hin. rewrite trace_of_btAPI_after.
  posted Hin.
  destruct (PostForm w _) as [e|resp]; [reflexivity|].
  destruct (400 <=? StatusCode resp); [reflexivity|].
  destruct (Body resp); reflexivity.
Qed.

(** The jar of the request of an operation, by the cookie set held. *)
Lemma operation_jar (op : Op) w c req :
  req ∈ sent (run_op op w c) ->
  exists u, req_url req = Url_String u
            /\ req_Jar req = match cookies c with
                             | [] => []
                             | _ :: _ => [(u, cookies c)]
                             end.
Proof.
  intros Hin.
  destruct (trace_cases op w c) as [(data & endpoint & _ & Heq) | Heq];
    rewrite Heq in *; [|by apply elem_of_nil in Hin].
  rewrite trace_of_btAPI_sent in Hin.
  destruct (btAPI_sent _ _ _ _ _ Hin) as (u & _ & _ & -> & _).
  exists u. split; [reflexivity|]. simpl. unfold request_jar.
  destruct (cookies c); reflexivity.
Qed.

(** X7. In a program, the jar of the request of an operation holds
    exactly the cookie set the client was left with by the operation
    before it (the set it started with, for the first): set once on the
    jar for the request's URL when there is a cookie, and nothing set
    when there is none. *)
Theorem program_replays_cookies (ops : list (World * Op)) (c : Client) (i : nat)
    (e : Effect unit) (req : Request) :
  run ops c !! i = Some e ->
  req ∈ sent e ->
  exists u, req_url req = Url_String u
            /\ req_Jar req =
               match (match i with
                      | O => cookies c
                      | S j => match run ops c !! j with
                               | Some e' => cookies (after e')
                               | None => []
                               end
                      end) with
               | [] => []
               | held => [(u, held)]
               end.
Proof.
  revert c i. induction ops as [|[w op] rest IH]; intros c i Hi Hin; [discriminate|].
  cbn [program] in *. destruct i as [|i]; simpl in Hi.
  - injection Hi as <-. destruct (operation_jar _ _ _ _ Hin) as (u & Hu & Hj).
    exists u. split; [exact Hu|]. rewrite Hj. destruct (cookies c); reflexivity.
  - destruct (result (run_op op w c)); [discriminate|].
    destruct (IH _ _ Hi Hin) as (u & Hu & Hj). exists u. split; [exact Hu|].
    rewrite Hj. destruct i as [|j]; reflexivity.
Qed.

End EveryOperation.

(** * Further properties of the operations *)

(** X8. An operation that returns an error returns the zero value of its
    result type with it, never a value decoded in part: this holds for the
    structured-decode and the best-effort operations, for [GetLimitNet]
    and for [GetIndex]. *)
Theorem error_comes_with_zero_value {T : Type} `{!Decodable T} w data endpoint id c :
  match result (structured_decode (T:=T) w data endpoint c) with
  | Return (v, Some _) => v = zero
  | _ => True
  end
  /\ match result (best_effort_decode (T:=T) w data endpoint c) with
     | Return (v, Some _) => v = zero
     | _ => True
     end
  /\ match result (GetLimitNet (RespLimitNet:=T) w id c) with
     | Return (v, Some _) => v = zero
     | _ => True
     end
  /\ match result (GetIndex w id c) with
     | Return (v, Some _) => v = ""
     | _ => True
     end.
Proof.
  assert (Hdec : forall resp, match decode (T:=T) resp with
                              | (v, Some _) => v = zero
                              | _ => True
                              end).
  { intros resp. unfold decode.
    destruct (Unmarshal resp zero) as [v [e|]]; [reflexivity | exact I]. }
  unfold structured_decode, best_effort_decode, GetLimitNet, GetIndex, then_.
  cbn [result]. repeat split.
  - destruct (result (btAPI w data endpoint c)) as [e|[resp [err|]]];
      [exact I | reflexivity | apply Hdec].
  - destruct (result (btAPI w data endpoint c)) as [e|[resp err]];
      [exact I | apply Hdec].
  - destruct (result (btAPI w _ "/site?action=GetLimitNet" c)) as [e|[resp [err|]]];
      [exact I | reflexivity | apply Hdec].
  - destruct (result (btAPI w _ "/site?action=GetIndex" c)) as [e|[resp [err|]]];
      [exact I | reflexivity | exact I].
Qed.

(** X9. A best-effort operation never returns the error of the executor:
    whenever [btAPI] fails, by the transport, by the status or by the
    reading of the body, the operation returns the decode error of an
    empty input. *)
Theorem best_effort_decode_loses_error {T : Type} `{!Decodable T}
    w data endpoint c resp err :
  result (btAPI w data endpoint c) = Return (resp, Some err) ->
  exists e, snd (Unmarshal "" (zero : T)) = Some e
            /\ result (best_effort_decode (T:=T) w data endpoint c)
               = Return (zero, Some e).
Proof.
  intros Hres. pose proof (btAPI_returns w data endpoint c) as Hb.
  rewrite Hres in Hb. destruct Hb as [-> _].
  unfold best_effort_decode, then_. cbn [result]. rewrite Hres. unfold decode.
  pose proof (Unmarshal_empty (zero : T)) as Hne.
  destruct (Unmarshal "" (zero : T)) as [v [e|]]; simpl in *; [eauto | congruence].
Qed.

Lemma best_effort_decode_loses_error_witness :
  exists e, snd (Unmarshal "" (zero : bool)) = Some e
            /\ result (best_effort_decode (T:=bool) (Double.unreachable 0) ∅
                         "/site?action=logsOpen" Double.client)
               = Return (zero, Some e).
Proof.
  refine (best_effort_decode_loses_error (T:=bool) (Double.unreachable 0) ∅
            "/site?action=logsOpen" Double.client ""
            (url_Error Double.refused) _).
  reflexivity.
Defined.

(** X10. Whatever made the request fail, [GetLimitNet] returns the same
    error, of empty message: the caller cannot tell a transport failure
    from a status error. *)
Theorem GetLimitNet_error_message_empty {T : Type} `{!Decodable T} w id c resp err :
  result (btAPI w (<["id" := [strconv.FormatInt id]]> ∅)
            "/site?action=GetLimitNet" c) = Return (resp, Some err) ->
  exists e, result (GetLimitNet (RespLimitNet:=T) w id c) = Return (zero, Some e)
            /\ e = errors.New ""
            /\ Error e = "".
Proof.
  intros Hres.
  pose proof (btAPI_returns w (<["id" := [strconv.FormatInt id]]> ∅)
                "/site?action=GetLimitNet" c) as Hb.
  rewrite Hres in Hb. destruct Hb as [-> _].
  eexists. split; [exact (GetLimitNet_replaces_error _ _ _ _ _ Hres)|].
  split; reflexivity.
Qed.

Lemma GetLimitNet_error_message_empty_witness :
  exists e, result (GetLimitNet (RespLimitNet:=bool)
                      (Double.answers 0 (Double.failed [] "not nginx")) 7
                      Double.client) = Return (zero, Some e)
            /\ e = errors.New ""
            /\ Error e = "".
Proof.
  refine (GetLimitNet_error_message_empty (T:=bool)
            (Double.answers 0 (Double.failed [] "not nginx")) 7 Double.client ""
            (errors.New "500 Internal Server Error") _).
  reflexivity.
Defined.


(** X12. The count [GetTaskCount] returns fits [int], whatever the panel
    answered. *)
Theorem GetTaskCount_fits_int w c :
  match result (GetTaskCount w c) with
  | Return n => fits_int n = true
  | Panic _ => True
  end.
Proof.
  unfold GetTaskCount, then_. cbn [result].
  destruct (result (btAPI w ∅ "/ajax?action=GetTaskCount" c)) as [e|[resp [err|]]];
    [exact I | reflexivity |].
  rewrite GetTaskCount_body.
  destruct (decimal_integer resp) as [n|]; [|reflexivity].
  destruct (fits_int n) eqn:Hn; [exact Hn | reflexivity].
Qed.


(** X13. The form a call posts holds the caller's parameters and the two
    signing fields, and nothing else; every caller's parameter is carried
    as given. *)
Theorem form_fields w data endpoint c req :
  req ∈ sent (btAPI w data endpoint c) ->
  dom (req_form req) = dom data ∪ {["request_token"; "request_time"]}
  /\ forall k v, data !! k = Some v -> req_form req !! k = Some v.
Proof.
  intros Hin. destruct (btAPI_sent _ _ _ _ _ Hin) as (u & _ & _ & -> & _).
  simpl. split; [|intros k v; apply form_body_caller].
  rewrite form_body_union, dom_union_L. unfold signing_fields.
  rewrite !dom_insert_L, dom_empty_L. set_solver.
Qed.

Lemma form_fields_witness :
  dom (req_form (new_request (Double.answers 0 (Double.ok [] "{}"))
                   {| Url_String := "http://panel.example:8888/x" |}
                   {["id" := ["7"]]} Double.client))
  = dom ({["id" := ["7"]]} : gmap string (list string))
    ∪ {["request_token"; "request_time"]}.
Proof.
  refine (proj1 (form_fields (Double.answers 0 (Double.ok [] "{}"))
                   {["id" := ["7"]]} "/x" Double.client _ _)).
  vm_compute. left.
Defined.

(** X14. [DeleteSite] asks for the removal of the FTP account, of the
    database and of the directory by the presence of a field: the form
    carries [ftp], [database] or [path] with the value 1 when the flag is
    set, and does not carry the field at all when it is not. *)
Theorem DeleteSite_flags {T : Type} `{!Decodable T} w params c req :
  req ∈ sent (DeleteSite (RespMSG:=T) w params c) ->
  req_form req !! "id" = Some [strconv.FormatInt (ID params)]
  /\ req_form req !! "webname" = Some [WebName params]
  /\ req_form req !! "ftp" = (if FTP params then Some ["1"] else None)
  /\ req_form req !! "database" = (if Database params then Some ["1"] else None)
  /\ req_form req !! "path" = (if Path params then Some ["1"] else None).
Proof.
  unfold DeleteSite, best_effort_decode, then_. cbn [sent]. intros Hin.
  destruct (btAPI_sent _ _ _ _ _ Hin) as (u & _ & _ & -> & _). simpl.
  rewrite form_body_union. unfold signing_fields, DeleteSite_data.
  destruct (FTP params), (Database params), (Path params);
    repeat split; simplify_map_eq; reflexivity.
Qed.

Lemma DeleteSite_flags_witness :
  req_form (new_request (Double.answers 0 (Double.ok [] "true"))
              {| Url_String := "http://panel.example:8888/site?action=DeleteSite" |}
              (DeleteSite_data {| ID := 1; WebName := "example.com"; FTP := true;
                                  Database := false; Path := false |})
              Double.client) !! "database" = None.
Proof.
  refine (proj1 (proj2 (proj2 (proj2
            (DeleteSite_flags (T:=bool) (Double.answers 0 (Double.ok [] "true"))
               {| ID := 1; WebName := "example.com"; FTP := true;
                  Database := false; Path := false |} Double.client _ _))))).
  vm_compute. left.
Defined.

(** X15. [GetSiteDomains] always asks for the list, and sends the key
    words, all of them as the values of the one field [search], only when
    there is one. *)
Theorem GetSiteDomains_search {T : Type} `{!Decodable T} w keyWords c req :
  req ∈ sent (GetSiteDomains (SiteDomains:=T) w keyWords c) ->
  req_form req !! "list" = Some ["true"]
  /\ req_form req !! "search" = match keyWords with
                                | [] => None
                                | _ :: _ => Some keyWords
                                end.
Proof.
  unfold GetSiteDomains, structured_decode, then_. cbn [sent]. intros Hin.
  destruct (btAPI_sent _ _ _ _ _ Hin) as (u & _ & _ & -> & _). simpl.
  rewrite form_body_union. unfold signing_fields, GetSiteDomains_data.
  destruct keyWords; split; simplify_map_eq; reflexivity.
Qed.

Lemma GetSiteDomains_search_witness :
  req_form (new_request (Double.answers 0 (Double.ok [] "true"))
              {| Url_String :=
                   "http://panel.example:8888/data?action=getData&table=domain" |}
              (GetSiteDomains_data ["example"; "test"])
              Double.client) !! "search" = Some ["example"; "test"].
Proof.
  refine (proj2 (GetSiteDomains_search (T:=bool)
                   (Double.answers 0 (Double.ok [] "true"))
                   ["example"; "test"] Double.client _ _)).
  vm_compute. left.
Defined.

(** X16. [AddSite] marshals the site name first: when that fails it
    returns the error and the zero value without sending anything, and
    otherwise the form carries the marshalled name under [webname] among
    its sixteen fields, the fourteen of the site and the two of signing. *)
Theorem AddSite_webname {T W : Type} `{!Decodable T} `{!Encodable W}
    w (params : ReqAddSite.t W) c :
  match Marshal (ReqAddSite.WebName params) with
  | (_, Some err) =>
      result (AddSite (RespAddSite:=T) w params c) = Return (zero, Some err)
      /\ sent (AddSite (RespAddSite:=T) w params c) = []
      /\ after (AddSite (RespAddSite:=T) w params c) = c
  | (webname, None) =>
      forall req, req ∈ sent (AddSite (RespAddSite:=T) w params c) ->
                  req_form req !! "webname" = Some [webname]
                  /\ size (req_form req) = 16%nat
  end.
Proof.
  unfold AddSite. destruct (Marshal _) as [webname [err|]]; [repeat split|].
  unfold structured_decode, then_. cbn [sent]. intros req Hin.
  destruct (btAPI_sent _ _ _ _ _ Hin) as (u & _ & _ & -> & _). simpl.
  rewrite form_body_union. unfold signing_fields, AddSite_data.
  split; [by simplify_map_eq|].
  rewrite <- size_dom, dom_union_L, !dom_insert_L, !dom_empty_L.
  vm_compute. reflexivity.
Qed.

(** The operations at the doubles: every result a boolean, the site name
    an optional string. *)
Lemma typed_operation_is_signed_witness :
  exists t,
    t = strconv.FormatInt 1700000000
    /\ req_form (new_request (Double.answers 1700000000 (Double.ok [] "true"))
                   {| Url_String := "http://panel.example:8888/site?action=logsOpen" |}
                   (<["id" := [strconv.FormatInt 7]]> ∅) Double.client)
       !! "request_time" = Some [t]
    /\ req_form (new_request (Double.answers 1700000000 (Double.ok [] "true"))
                   {| Url_String := "http://panel.example:8888/site?action=logsOpen" |}
                   (<["id" := [strconv.FormatInt 7]]> ∅) Double.client)
       !! "request_token" = Some [MD5 (t ++ MD5 "secret")].
Proof.
  refine (typed_operation_is_signed
            (NetWork:=bool) (SystemTotal:=bool) (DiskInfo:=bool)
            (PHPVersions:=bool) (UpdateStatus:=bool) (RespSites:=bool)
            (RespAddSite:=bool) (RespMSG:=bool) (RespSiteBackups:=bool)
            (SiteDomains:=bool) (RewriteList:=bool) (RespGetFile:=bool)
            (RespUserINI:=bool) (RespLimitNet:=bool) (WebNameT:=option string)
            (opSetLogsOpen 7)
            (Double.answers 1700000000 (Double.ok [] "true")) Double.client _ _ _).
  - reflexivity.
  - vm_compute. left.
Defined.

Lemma operation_cookies_witness :
  cookies (after (GetTaskCount (Double.answers 0 (Double.ok Double.B "none"))
                    Double.seeded))
  = Double.B.
Proof.
  refine (operation_cookies
            (NetWork:=bool) (SystemTotal:=bool) (DiskInfo:=bool)
            (PHPVersions:=bool) (UpdateStatus:=bool) (RespSites:=bool)
            (RespAddSite:=bool) (RespMSG:=bool) (RespSiteBackups:=bool)
            (SiteDomains:=bool) (RewriteList:=bool) (RespGetFile:=bool)
            (RespUserINI:=bool) (RespLimitNet:=bool) (WebNameT:=option string)
            opGetTaskCount
            (Double.answers 0 (Double.ok Double.B "none")) Double.seeded _ _).
  vm_compute. left.
Defined.

Lemma program_replays_cookies_witness :
  exists u,
    req_url (new_request (Double.unreachable 2)
               {| Url_String := "http://panel.example:8888/ajax?action=GetTaskCount" |}
               ∅ (set_cookies Double.client Double.B))
    = Url_String u
    /\ req_Jar (new_request (Double.unreachable 2)
                  {| Url_String :=
                       "http://panel.example:8888/ajax?action=GetTaskCount" |}
                  ∅ (set_cookies Double.client Double.B))
       = [(u, Double.B)].
Proof.
  refine (program_replays_cookies
            (NetWork:=bool) (SystemTotal:=bool) (DiskInfo:=bool)
            (PHPVersions:=bool) (UpdateStatus:=bool) (RespSites:=bool)
            (RespAddSite:=bool) (RespMSG:=bool) (RespSiteBackups:=bool)
            (SiteDomains:=bool) (RewriteList:=bool) (RespGetFile:=bool)
            (RespUserINI:=bool) (RespLimitNet:=bool) (WebNameT:=option string)
            [ (Double.answers 1 (Double.ok Double.B "true"), opGetNetWork);
              (Double.unreachable 2, opGetTaskCount) ]
            Double.client 1%nat _ _ _ _).
  - reflexivity.
  - vm_compute. left.
Defined.

Example AddSite_missing_name_sends_nothing :
  sent (AddSite (RespAddSite:=bool) (Double.answers 0 (Double.ok [] "true"))
          (NameDouble.site None) Double.client) = [].
Proof. reflexivity. Qed.
